(** * Sparkify data-lake ETL (etl.py): a shallow embedding

    The pipeline of [etl.py] reads two JSON sources into Spark DataFrames,
    derives five tables from them with relational operators and Python
    lambdas wrapped as UDFs, and writes every table to a parquet location.

    The development is organised as the program is:
    - [Py]: the Python expressions inside the lambdas ([int(x) / 1000],
      [int], [str], [datetime.fromtimestamp], [weekday], [isocalendar],
      [calendar.day_name]);
    - [Spark]: DataFrames as an ordered list of column names over a list of
      rows, with [select], [distinct], [withColumn], [join] and the parquet
      store; the order in which the engine returns the rows of a
      [distinct], of a [join] or of a dataset it reads, and the text the JVM
      gives to a Python [datetime], are parameters of the engine;
    - [Etl]: [process_song_data], [process_log_data] and [main];
    - the properties of the five tables. *)

From Stdlib Require Import ZArith String List Lia.
From stdpp Require Import base decidable option list strings gmap pretty.

Local Open Scope Z_scope.

(** ** Python arithmetic and datetime *)

Module Py.

(** A binary64 value [m * 2^e]; only finite values occur here. *)
Record float := Float { mant : Z; expo : Z }.

(** Round-half-even of the positive rational [num / den] to an integer. *)
Definition round_half_even (num den : Z) : Z :=
  let m0 := num / den in
  let r := num mod den in
  if 2 * r <? den then m0
  else if den <? 2 * r then m0 + 1
  else if Z.even m0 then m0 else m0 + 1.

(** [floor (log2 (a / b))] for positive [a] and [b]. *)
Definition log2_quot (a b : Z) : Z :=
  let d := Z.log2 a - Z.log2 b in
  if b * 2 ^ Z.max d 0 <=? a * 2 ^ Z.max (- d) 0 then d else d - 1.

(** The quotient of two positive integers, correctly rounded to the 53 bits
    of a binary64 significand: what [a / b] gives on Python ints.  The
    quotients met here are at least [1/1000], far above the subnormal range;
    a quotient of [2^1024] or more raises [OverflowError]. *)
Definition truediv_pos (a b : Z) : option float :=
  let e := log2_quot a b - 52 in
  let m := round_half_even (a * 2 ^ Z.max (- e) 0) (b * 2 ^ Z.max e 0) in
  if (0 <=? e) && (2 ^ 1024 <=? m * 2 ^ e) then None
  else Some (Float m e).

(** [a / b] for a Python int [a] and a positive int [b]. *)
Definition truediv (a b : Z) : option float :=
  match a with
  | Z0 => Some (Float 0 0)
  | Zpos _ => truediv_pos a b
  | Zneg _ =>
      match truediv_pos (- a) b with
      | Some f => Some (Float (- mant f) (expo f))
      | None => None
      end
  end.

(** [int(f)] on a float: truncation toward zero. *)
Definition int_of_float (f : float) : Z :=
  if 0 <=? expo f then mant f * 2 ^ expo f
  else Z.quot (mant f) (2 ^ (- expo f)).

(** [int(x / 1000)] for an int [x], as both lambdas compute it. *)
Definition int_div_1000 (x : Z) : option Z :=
  int_of_float <$> truediv x 1000.

(** [2^44 * 1000 + 999]: the first integer whose quotient by 1000 rounds up
    to the next integer in binary64. *)
Definition exact_bound : Z := 17592186044416999.

(** [str(n)] on an int. *)
Definition str (n : Z) : string := pretty n.

(** *** [datetime]

    A naive [datetime.datetime], to the second.  The functions below follow
    the proleptic Gregorian ordinal arithmetic of the [datetime] module:
    day 1 is 0001-01-01. *)

Record datetime := Datetime {
  year : Z; month : Z; day : Z; hour : Z; minute : Z; second : Z;
  fold : Z }.

Definition MINYEAR : Z := 1.
Definition MAXYEAR : Z := 9999.

Definition is_leap (y : Z) : bool :=
  (y mod 4 =? 0) && (negb (y mod 100 =? 0) || (y mod 400 =? 0)).

Definition days_before_year (y : Z) : Z :=
  let p := y - 1 in p * 365 + p / 4 - p / 100 + p / 400.

Definition DAYS_IN_MONTH : list Z :=
  [31; 28; 31; 30; 31; 30; 31; 31; 30; 31; 30; 31].

Definition days_in_month (y m : Z) : Z :=
  if (m =? 2) && is_leap y then 29
  else nth (Z.to_nat (m - 1)) DAYS_IN_MONTH 0.

Definition days_before_month (y m : Z) : Z :=
  fold_right Z.add 0 (map (days_in_month y) (map Z.of_nat (seq 1 (Z.to_nat (m - 1))))).

Definition ymd2ord (y m d : Z) : Z :=
  days_before_year y + days_before_month y m + d.

Definition DI400Y : Z := 146097.
Definition DI100Y : Z := 36524.
Definition DI4Y : Z := 1461.

(** [_ord2ymd]: the date of a proleptic Gregorian ordinal. *)
Definition ord2ymd (ordinal : Z) : Z * Z * Z :=
  let n := ordinal - 1 in
  let n400 := n / DI400Y in let n := n mod DI400Y in
  let n100 := n / DI100Y in let n := n mod DI100Y in
  let n4 := n / DI4Y in let n := n mod DI4Y in
  let n1 := n / 365 in let n := n mod 365 in
  let y := n400 * 400 + 1 + n100 * 100 + n4 * 4 + n1 in
  if (n1 =? 4) || (n100 =? 4) then (y - 1, 12, 31)
  else
    let m := Z.shiftr (n + 50) 5 in
    let preceding := days_before_month y m in
    if n <? preceding
    then (y, m - 1, n - (preceding - days_in_month y (m - 1)) + 1)
    else (y, m, n - preceding + 1).

Definition toordinal (t : datetime) : Z := ymd2ord (year t) (month t) (day t).

(** [t.weekday()]: Monday is 0, Sunday is 6. *)
Definition weekday (t : datetime) : Z := (toordinal t + 6) mod 7.

Definition isoweek1monday (y : Z) : Z :=
  let firstday := ymd2ord y 1 1 in
  let firstweekday := (firstday + 6) mod 7 in
  let week1monday := firstday - firstweekday in
  if 3 <? firstweekday then week1monday + 7 else week1monday.

(** [t.isocalendar()]: ISO year, ISO week number, ISO weekday. *)
Definition isocalendar (t : datetime) : Z * Z * Z :=
  let y := year t in
  let today := toordinal t in
  let week := (today - isoweek1monday y) / 7 in
  let wd := (today - isoweek1monday y) mod 7 in
  if week <? 0 then
    let w1 := isoweek1monday (y - 1) in
    (y - 1, (today - w1) / 7 + 1, (today - w1) mod 7 + 1)
  else if (52 <=? week) && (isoweek1monday (y + 1) <=? today) then
    (y + 1, 1, wd + 1)
  else (y, week + 1, wd + 1).

(** [calendar.day_name], in the English locale. *)
Definition day_name : list string :=
  ["Monday"; "Tuesday"; "Wednesday"; "Thursday"; "Friday"; "Saturday";
   "Sunday"]%string.

Section LocalTime.

(** The zone of the host: the offset of local time from UTC, in seconds, at
    a given epoch second. *)
Variable utcoffset : Z -> Z.

Definition EPOCH_ORDINAL : Z := 719163.

(** [time.localtime]: the local calendar reading of an epoch second. *)
Definition localtime (t : Z) : datetime :=
  let l := t + utcoffset t in
  let '(y, m, d) := ord2ymd (EPOCH_ORDINAL + l / 86400) in
  let s := l mod 86400 in
  Datetime y m d (s / 3600) (s mod 3600 / 60) (s mod 60) 0.

(** A reading is turned into seconds only when its year is one a
    [datetime] can hold; otherwise [ValueError] is raised. *)
Definition year_ok (t : datetime) : bool :=
  (MINYEAR <=? year t) && (year t <=? MAXYEAR).

Definition max_fold_seconds : Z := 86400.

(** The change of the offset over the 24 hours before [t]: the difference
    of the local readings of [t] and of [t - max_fold_seconds], less
    [max_fold_seconds]. *)
Definition transition (t : Z) : Z :=
  utcoffset t - utcoffset (t - max_fold_seconds).

(** [fromtimestamp] reads the local time of [t], then probes the local
    time 24 hours earlier to detect a fold and, when the offset went down,
    the local time at [t + transition]; every reading must have a year in
    [MINYEAR..MAXYEAR]. *)
Definition representable (t : Z) : bool :=
  year_ok (localtime t) &&
  year_ok (localtime (t - max_fold_seconds)) &&
  (if transition t <? 0 then year_ok (localtime (t + transition t))
   else true).

(** The second of two equal local readings has [fold = 1]. *)
Definition fold_of (t : Z) : Z :=
  let u := t + transition t in
  if (transition t <? 0) && (u + utcoffset u =? t + utcoffset t) then 1
  else 0.

Definition local_datetime (t : Z) : datetime :=
  let r := localtime t in
  Datetime (year r) (month r) (day r) (hour r) (minute r) (second r)
           (fold_of t).

(** [datetime.fromtimestamp(t)] on an int [t], no [tz] argument: the naive
    local datetime, or an exception. *)
Definition fromtimestamp (t : Z) : option datetime :=
  if representable t then Some (local_datetime t) else None.

End LocalTime.

End Py.

(** ** DataFrames *)

Module Spark.

(** What a lambda of the program returns. *)
Inductive pyobj :=
  | PyInt (n : Z)
  | PyStr (s : string)
  | PyDatetime (t : Py.datetime).

(** A cell.  The cell of a UDF column holds the Python object the lambda
    returned: a UDF applied to that column in the same projection is chained
    with it in the Python worker and receives the object itself.  The
    engine sees the cell as a string (see [materialize]). *)
Inductive value :=
  | VNull
  | VStr (s : string)
  | VLong (n : Z)
  | VDouble (d : Py.float)
  | VPy (o : pyobj).

#[global] Instance float_eq_dec : EqDecision Py.float.
Proof. solve_decision. Defined.
#[global] Instance datetime_eq_dec : EqDecision Py.datetime.
Proof. solve_decision. Defined.
#[global] Instance pyobj_eq_dec : EqDecision pyobj.
Proof. solve_decision. Defined.
#[global] Instance value_eq_dec : EqDecision value.
Proof. solve_decision. Defined.

Definition row := list value.

(** Columns are ordered and a name may occur twice (after a join). *)
Record DataFrame := { columns : list string; rows : list row }.

Inductive error :=
  | AnalysisException   (* unresolved or ambiguous column, missing path *)
  | PythonException.    (* a lambda raised inside a UDF *)

Inductive result (A : Type) :=
  | Ok (a : A)
  | Err (e : error).
Arguments Ok {A} a.
Arguments Err {A} e.

#[global] Instance result_ret : MRet result := λ A a, Ok a.
#[global] Instance result_bind : MBind result := λ A B f m,
  match m with Ok a => f a | Err e => Err e end.
#[global] Instance result_fmap : FMap result := λ A B f m,
  match m with Ok a => Ok (f a) | Err e => Err e end.

Definition of_option {A} (e : error) (o : option A) : result A :=
  match o with Some a => Ok a | None => Err e end.

(** What the program does not decide and the engine does:
    - [calendar_string]: a UDF declared without a return type is a string
      UDF, and the JVM turns the object it gets from the Python worker into
      its own text; for a [datetime] that is the text of the
      [java.util.GregorianCalendar] the object is unpickled to, which
      depends on the zone and the locale of the JVM;
    - [shuffle]: the order in which the rows of a [distinct], of a [join]
      or of a dataset read from its files come back. *)
Record engine := {
  calendar_string : Py.datetime → string;
  shuffle : list row → list row }.

(** The positions of a name among the columns. *)
Fixpoint positions (cols : list string) (name : string) (i : nat) : list nat :=
  match cols with
  | [] => []
  | c :: cols =>
      if bool_decide (c = name) then i :: positions cols name (S i)
      else positions cols name (S i)
  end.

(** Resolving a name: it must denote exactly one column. *)
Definition resolve (cols : list string) (name : string) : result nat :=
  match positions cols name 0 with
  | [i] => Ok i
  | _ => Err AnalysisException
  end.

Definition cell (i : nat) (r : row) : value := nth i r VNull.

(** [df.select(col(c1).alias(n1), ...)]. *)
Definition select_as (df : DataFrame) (cs : list (string * string))
  : result DataFrame :=
  ixs ← mapM (λ c, resolve (columns df) c.1) cs;
  Ok {| columns := cs.*2;
        rows := map (λ r, map (λ i, cell i r) ixs) (rows df) |}.

(** [df.select(c1, ...)] and [df[c1, ...]]. *)
Definition select (df : DataFrame) (cs : list string) : result DataFrame :=
  select_as df (map (λ c, (c, c)) cs).

(** Placing the value of column [name] in a row: an existing column of that
    name is replaced, otherwise the column is appended. *)
Definition set_cell (cols : list string) (name : string) (v : value) (r : row)
  : row :=
  if bool_decide (name ∈ cols)
  then zip_with (λ c x, if bool_decide (c = name) then v else x) cols r
  else r ++ [v].

(** [df.withColumn(name, f(df.src))] for a one-argument Python UDF [f]
    declared without a return type. *)
Definition withColumn (df : DataFrame) (name : string)
    (f : value → result pyobj) (src : string) : result DataFrame :=
  i ← resolve (columns df) src;
  rs ← mapM (λ r, o ← f (cell i r); Ok (set_cell (columns df) name (VPy o) r))
            (rows df);
  Ok {| columns := if bool_decide (name ∈ columns df) then columns df
                   else columns df ++ [name];
        rows := rs |}.

(** SQL [=] as a join condition: true only on two equal non-null cells. *)
Definition sql_eq (a b : value) : Prop := a ≠ VNull ∧ b ≠ VNull ∧ a = b.

#[global] Instance sql_eq_dec a b : Decision (sql_eq a b).
Proof. unfold sql_eq. apply _. Defined.

(** The rows an inner join emits for one left row. *)
Definition join_row (i j : nat) (right : list row) (l : row) : list row :=
  map (app l) (filter (λ r, sql_eq (cell j r) (cell i l)) right).

(** [df.select(monotonically_increasing_id().alias(name))], with the rows in
    one partition: the ids count from 0. *)
Definition select_monotonically_increasing_id (df : DataFrame) (name : string)
  : DataFrame :=
  {| columns := [name];
     rows := imap (λ i _, [VLong (Z.of_nat i)]) (rows df) |}.

Section Engine.

Variable E : engine.

(** A UDF cell as the engine holds it: the string of the object. *)
Definition materialize (v : value) : value :=
  match v with
  | VPy (PyInt n) => VStr (Py.str n)
  | VPy (PyStr s) => VStr s
  | VPy (PyDatetime t) => VStr (calendar_string E t)
  | _ => v
  end.

(** The rows as they leave the projection that computed them: to an
    aggregate, to a join, or to a file. *)
Definition stored (rs : list row) : list row := map (map materialize) rs.

(** [df.distinct()]: one row of each class of equal rows, in the order of
    the engine. *)
Definition distinct (df : DataFrame) : DataFrame :=
  {| columns := columns df;
     rows := shuffle E (remove_dups (stored (rows df))) |}.

(** [df.join(right, right.rcol == df.lcol)]: inner equi-join; the columns of
    [df] come first, the rows in the order of the engine. *)
Definition join (df right : DataFrame) (rcol lcol : string)
  : result DataFrame :=
  j ← resolve (columns right) rcol;
  i ← resolve (columns df) lcol;
  Ok {| columns := columns df ++ columns right;
        rows := shuffle E (stored (rows df) ≫=
                             join_row i j (stored (rows right))) |}.

End Engine.

(** *** The parquet store

    The bucket, keyed by the root path of each dataset.  The files of a
    dataset live under its root, so a key that extends the root by ["/"] is
    inside the dataset. *)

Record parquet := { data : DataFrame; partitioned_by : list string }.

Abbreviation storage := (gmap string parquet).

Definition under (root key : string) : Prop :=
  String.prefix (root +:+ "/") key = true.

#[global] Instance under_dec root key : Decision (under root key).
Proof. unfold under. apply _. Defined.

(** [mode="overwrite"]: what was at the path and under it is deleted, and
    the dataset takes its place. *)
Definition overwrite (path : string) (p : parquet) (st : storage) : storage :=
  <[path := p]> (filter (λ kv, ¬ under path kv.1) st).

(** [df.write.partitionBy(ps).parquet(path, mode="overwrite")]. *)
Definition write_parquet (E : engine) (df : DataFrame) (ps : list string)
    (path : string) (st : storage) : result storage :=
  _ ← mapM (resolve (columns df)) ps;
  if bool_decide (NoDup (columns df))
  then Ok (overwrite path
             {| data := {| columns := columns df;
                           rows := stored E (rows df) |};
                partitioned_by := ps |} st)
  else Err AnalysisException.

(** [spark.read.parquet(path)]: the rows of the files of the dataset, in
    the order of the engine; partition columns are read back last. *)
Definition read_parquet (E : engine) (path : string) (st : storage)
  : result DataFrame :=
  match st !! path with
  | None => Err AnalysisException
  | Some p =>
      let df := {| columns := columns (data p);
                   rows := shuffle E (rows (data p)) |} in
      match partitioned_by p with
      | [] => Ok df
      | ps => select df (filter (λ c, c ∉ ps) (columns df) ++ ps)
      end
  end.

End Spark.

(** ** The pipeline of etl.py *)

Module Etl.
Import Spark.

(** Modelled from the spec: the records of the two JSON sources, which live
    in the input bucket and not in the repository; the fields are those of
    the data model (SongRecord and LogEvent).  Every JSON string field may
    be null. *)
Record SongRecord := {
  song_id : string;
  title : option string;
  artist_id : string;
  artist_name : option string;
  artist_location : option string;
  artist_latitude : option Py.float;
  artist_longitude : option Py.float;
  year : Z;
  duration : Py.float }.

Record LogEvent := {
  ts : Z;
  userId : option string;
  firstName : option string;
  lastName : option string;
  gender : option string;
  level : option string;
  sessionId : Z;
  location : option string;
  userAgent : option string;
  song : option string;
  page : option string }.

(** The content of the input bucket under [input_data]. *)
Record source := { song_data : list SongRecord; log_data : list LogEvent }.

Definition str_cell (o : option string) : value := from_option VStr VNull o.
Definition double_cell (o : option Py.float) : value :=
  from_option VDouble VNull o.

(** Modelled from the spec: [spark.read.json] on the song files.  The
    schema is inferred from the records, its fields in alphabetical order;
    from no record no column is inferred, and the first [select] then
    raises. *)
Definition read_song_json (recs : list SongRecord) : DataFrame :=
  {| columns := match recs with
                | [] => []
                | _ => ["artist_id"; "artist_latitude"; "artist_location";
                        "artist_longitude"; "artist_name"; "duration";
                        "song_id"; "title"; "year"]
                end;
     rows := map (λ r, [VStr (artist_id r); double_cell (artist_latitude r);
                        str_cell (artist_location r);
                        double_cell (artist_longitude r);
                        str_cell (artist_name r); VDouble (duration r);
                        VStr (song_id r); str_cell (title r); VLong (year r)])
                 recs |}.

(** Modelled from the spec: [spark.read.json] on the log files, in the same
    way. *)
Definition read_log_json (evs : list LogEvent) : DataFrame :=
  {| columns := match evs with
                | [] => []
                | _ => ["firstName"; "gender"; "lastName"; "level";
                        "location"; "page"; "sessionId"; "song"; "ts";
                        "userAgent"; "userId"]
                end;
     rows := map (λ e, [str_cell (firstName e); str_cell (gender e);
                        str_cell (lastName e); str_cell (level e);
                        str_cell (location e); str_cell (page e);
                        VLong (sessionId e); str_cell (song e); VLong (ts e);
                        str_cell (userAgent e); str_cell (userId e)])
                 evs |}.

(** [int(x)] on a cell of [ts], a long column: the integer itself, and
    [TypeError] on [None]; the column holds no other cell. *)
Definition py_int (x : value) : result Z :=
  match x with
  | VLong n => Ok n
  | _ => Err PythonException
  end.

(** An attribute or method of a [datetime]: the lambda is chained with the
    one that made the [datetime] and receives the object; anything else has
    no such attribute. *)
Definition on_datetime (f : Py.datetime → pyobj) (x : value) : result pyobj :=
  match x with
  | VPy (PyDatetime t) => Ok (f t)
  | _ => Err PythonException
  end.

(** [lambda x: str(int(int(x) / 1000))] *)
Definition get_timestamp (x : value) : result pyobj :=
  n ← py_int x;
  q ← of_option PythonException (Py.int_div_1000 n);
  Ok (PyStr (Py.str q)).

(** [lambda x: calendar.day_name[x.weekday()]] *)
Definition get_week : value → result pyobj :=
  on_datetime (λ t, PyStr (nth (Z.to_nat (Py.weekday t)) Py.day_name "")).

(** [lambda x: x.isocalendar()[1]] *)
Definition get_weekday : value → result pyobj :=
  on_datetime (λ t, PyInt (Py.isocalendar t).1.2).

Definition get_hour : value → result pyobj :=
  on_datetime (λ t, PyInt (Py.hour t)).
Definition get_day : value → result pyobj :=
  on_datetime (λ t, PyInt (Py.day t)).
Definition get_year : value → result pyobj :=
  on_datetime (λ t, PyInt (Py.year t)).
Definition get_month : value → result pyobj :=
  on_datetime (λ t, PyInt (Py.month t)).

Definition users_table (df : DataFrame) : result DataFrame :=
  select df ["userId"; "firstName"; "lastName"; "gender"; "level"].

Definition time_table (df : DataFrame) : result DataFrame :=
  select df ["start_time"; "hour"; "day"; "week"; "month"; "year"; "weekday"].

Section Host.

(** The zone of the Python workers and the engine. *)
Variable utcoffset : Z → Z.
Variable E : engine.

(** *** process_song_data *)

Definition songs_table (df : DataFrame) : result DataFrame :=
  distinct E <$>
    select df ["song_id"; "title"; "artist_id"; "year"; "duration"].

Definition artists_table (df : DataFrame) : result DataFrame :=
  distinct E <$> select_as df
    [("artist_id", "artist_id"); ("artist_name", "name");
     ("artist_location", "location"); ("artist_latitude", "latitude");
     ("artist_longitude", "longitude")].

(** The function, on the output bucket [st]; an error aborts the run.  The
    two [print] calls are left out. *)
Definition process_song_data (input_data : source) (output_data : string)
    (st : storage) : result storage :=
  let df := read_song_json (song_data input_data) in
  songs ← songs_table df;
  st ← write_parquet E songs [] (output_data +:+ "songs.parquet") st;
  artists ← artists_table df;
  write_parquet E artists [] (output_data +:+ "artists.parquet") st.

(** *** process_log_data *)

(** [lambda x: datetime.fromtimestamp(int(int(x) / 1000))] *)
Definition get_datetime (x : value) : result pyobj :=
  n ← py_int x;
  q ← of_option PythonException (Py.int_div_1000 n);
  t ← of_option PythonException (Py.fromtimestamp utcoffset q);
  Ok (PyDatetime t).

(** Lines 88 to 105: the eight [withColumn] calls. *)
Definition with_time_columns (df : DataFrame) : result DataFrame :=
  df ← withColumn df "timestamp" get_timestamp "ts";
  df ← withColumn df "start_time" get_datetime "ts";
  df ← withColumn df "hour" get_hour "start_time";
  df ← withColumn df "day" get_day "start_time";
  df ← withColumn df "week" get_week "start_time";
  df ← withColumn df "month" get_month "start_time";
  df ← withColumn df "year" get_year "start_time";
  withColumn df "weekday" get_weekday "start_time".

(** Lines 118 and 119: the join with the songs read back, and its
    projection. *)
Definition songplays_table (df song_df : DataFrame) : result DataFrame :=
  df ← join E df song_df "title" "song";
  select df ["start_time"; "userId"; "level"; "song_id"; "artist_id";
             "sessionId"; "location"; "userAgent"].

(** The function, on the output bucket [st].  Every column is computed
    where the program defines it; an error in a lambda aborts the run. *)
Definition process_log_data (input_data : source) (output_data : string)
    (st : storage) : result storage :=
  let df := read_log_json (log_data input_data) in
  _ ← select df ["ts"; "userId"; "level"; "sessionId"; "location";
                 "userAgent"];
  users ← users_table df;
  st ← write_parquet E users [] (output_data +:+ "users.parquet") st;
  df ← with_time_columns df;
  time ← time_table df;
  st ← write_parquet E time ["year"; "month"]
         (output_data +:+ "time.parquet") st;
  song_df ← read_parquet E (output_data +:+ "songs.parquet") st;
  songplays ← songplays_table df song_df;
  (* the ids are collected on the driver and dropped *)
  let _ := rows (select_monotonically_increasing_id songplays "songplay_id") in
  write_parquet E songplays [] (output_data +:+ "songplays.parquet") st.

(** [main], on the content of the input bucket and of the output bucket. *)
Definition main (input_data : source) (st : storage) : result storage :=
  let output_data := "s3a://sparkify-dend/" in
  st ← process_song_data input_data output_data st;
  process_log_data input_data output_data st.

(** The table that a run of [main] leaves at [output_data + name]. *)
Definition written (input_data : source) (name : string)
  : option DataFrame :=
  match main input_data ∅ with
  | Ok st => data <$> st !! ("s3a://sparkify-dend/" +:+ name)
  | Err _ => None
  end.

End Host.

End Etl.

(** ** The tables a run writes

    The rows of each table, cell by cell, as functions of the input
    records; the lemmas below show that the program computes them. *)

Module Tables.
Import Spark Etl.

Definition song_row (r : SongRecord) : row :=
  [VStr (song_id r); str_cell (title r); VStr (artist_id r); VLong (year r);
   VDouble (duration r)].

Definition artist_row (r : SongRecord) : row :=
  [VStr (artist_id r); str_cell (artist_name r);
   str_cell (artist_location r); double_cell (artist_latitude r);
   double_cell (artist_longitude r)].

Definition user_row (e : LogEvent) : row :=
  [str_cell (userId e); str_cell (firstName e); str_cell (lastName e);
   str_cell (gender e); str_cell (level e)].

Definition seconds (x : Z) : Z := default 0 (Py.int_div_1000 x).

(** The rows of the songs table whose title equals the song of an event. *)
Definition matching (songs : list row) (e : LogEvent) : list row :=
  filter (λ s, sql_eq (cell 1 s) (str_cell (song e))) songs.

Definition annotated_columns : list string :=
  ["firstName"; "gender"; "lastName"; "level"; "location"; "page";
   "sessionId"; "song"; "ts"; "userAgent"; "userId"; "timestamp";
   "start_time"; "hour"; "day"; "week"; "month"; "year"; "weekday"].

Definition table (cols : list string) (rs : list row) (ps : list string)
  : parquet :=
  {| data := {| columns := cols; rows := rs |}; partitioned_by := ps |}.

(** The five paths that [main] writes. *)
Definition table_paths : list string :=
  ["s3a://sparkify-dend/songs.parquet";
   "s3a://sparkify-dend/artists.parquet";
   "s3a://sparkify-dend/users.parquet";
   "s3a://sparkify-dend/time.parquet";
   "s3a://sparkify-dend/songplays.parquet"].

Section Host.

Variable tz : Z → Z.
Variable E : engine.

(** The timestamps on which both lambdas return: the quotient does not
    overflow and [fromtimestamp] does not raise on it. *)
Definition valid_ts (x : Z) : bool :=
  match Py.int_div_1000 x with
  | Some q => Py.representable tz q
  | None => false
  end.

Definition start_time (e : LogEvent) : Py.datetime :=
  Py.local_datetime tz (seconds (ts e)).

(** A row of the log DataFrame after the eight [withColumn] calls, in the
    Python worker. *)
Definition annotated_row (e : LogEvent) : row :=
  let t := start_time e in
  [str_cell (firstName e); str_cell (gender e); str_cell (lastName e);
   str_cell (level e); str_cell (location e); str_cell (page e);
   VLong (sessionId e); str_cell (song e); VLong (ts e);
   str_cell (userAgent e); str_cell (userId e);
   VPy (PyStr (Py.str (seconds (ts e)))); VPy (PyDatetime t);
   VPy (PyInt (Py.hour t)); VPy (PyInt (Py.day t));
   VPy (PyStr (nth (Z.to_nat (Py.weekday t)) Py.day_name ""));
   VPy (PyInt (Py.month t)); VPy (PyInt (Py.year t));
   VPy (PyInt (Py.isocalendar t).1.2)].

(** The seven cells of a row of the time table, as they are written. *)
Definition time_row (e : LogEvent) : row :=
  let t := start_time e in
  [VStr (calendar_string E t); VStr (Py.str (Py.hour t));
   VStr (Py.str (Py.day t));
   VStr (nth (Z.to_nat (Py.weekday t)) Py.day_name "");
   VStr (Py.str (Py.month t)); VStr (Py.str (Py.year t));
   VStr (Py.str (Py.isocalendar t).1.2)].

(** The songplays row of an event joined with a row [s] of the songs
    table. *)
Definition songplay_row (e : LogEvent) (s : row) : row :=
  [VStr (calendar_string E (start_time e)); str_cell (userId e);
   str_cell (level e); cell 0 s; cell 2 s; VLong (sessionId e);
   str_cell (location e); str_cell (userAgent e)].

(** The songplays rows of one log event: one for each row of the songs
    table whose title is the song of the event. *)
Definition event_rows (songs : list row) (e : LogEvent) : list row :=
  map (songplay_row e) (matching songs e).

Definition songs_rows (inp : source) : list row :=
  stored E (shuffle E (remove_dups (map song_row (song_data inp)))).

Definition artists_rows (inp : source) : list row :=
  stored E (shuffle E (remove_dups (map artist_row (song_data inp)))).

(** The songs rows as they are read back for the join. *)
Definition song_df_rows (inp : source) : list row :=
  stored E (shuffle E (songs_rows inp)).

Definition joined_rows (inp : source) : list row :=
  shuffle E (stored E (map annotated_row (log_data inp)) ≫=
               join_row 7 1 (song_df_rows inp)).

Definition songplays_rows (inp : source) : list row :=
  stored E (map (λ r, map (λ i, cell i r)
                          [12; 10; 3; 19; 21; 6; 4; 9]%nat)
                (joined_rows inp)).

(** The output bucket after a run of [main] that started on [st]. *)
Definition output (inp : source) (st : storage) : storage :=
  overwrite "s3a://sparkify-dend/songplays.parquet"
    (table ["start_time"; "userId"; "level"; "song_id"; "artist_id";
            "sessionId"; "location"; "userAgent"]
           (songplays_rows inp) [])
  (overwrite "s3a://sparkify-dend/time.parquet"
    (table ["start_time"; "hour"; "day"; "week"; "month"; "year"; "weekday"]
           (map time_row (log_data inp)) ["year"; "month"])
  (overwrite "s3a://sparkify-dend/users.parquet"
    (table ["userId"; "firstName"; "lastName"; "gender"; "level"]
           (map user_row (log_data inp)) [])
  (overwrite "s3a://sparkify-dend/artists.parquet"
    (table ["artist_id"; "name"; "location"; "latitude"; "longitude"]
           (artists_rows inp) [])
  (overwrite "s3a://sparkify-dend/songs.parquet"
    (table ["song_id"; "title"; "artist_id"; "year"; "duration"]
           (songs_rows inp) []) st)))).

End Host.

End Tables.

(** ** Sample inputs

    The example of the spec (one song, one play of it) and variations. *)

Module Samples.
Import Spark Etl.

(** A host whose local time is UTC. *)
Definition utc : Z → Z := λ _, 0.

Definition quote : string := String (Ascii.ascii_of_nat 34) EmptyString.

(** The text of a [java.util.GregorianCalendar] built from the fields of a
    [datetime] and not yet computed, on a JVM in the US locale whose zone
    is UTC. *)
Definition gregorian_calendar_text (t : Py.datetime) : string :=
  "java.util.GregorianCalendar[time=?,areFieldsSet=false," +:+
  "areAllFieldsSet=false,lenient=true," +:+
  "zone=sun.util.calendar.ZoneInfo[id=" +:+ quote +:+ "UTC" +:+ quote +:+
  ",offset=0,dstSavings=0,useDaylight=false,transitions=0,lastRule=null]," +:+
  "firstDayOfWeek=1,minimalDaysInFirstWeek=1,ERA=?,YEAR=" +:+
  Py.str (Py.year t) +:+ ",MONTH=" +:+ Py.str (Py.month t - 1) +:+
  ",WEEK_OF_YEAR=?,WEEK_OF_MONTH=?,DAY_OF_MONTH=" +:+ Py.str (Py.day t) +:+
  ",DAY_OF_YEAR=?,DAY_OF_WEEK=?,DAY_OF_WEEK_IN_MONTH=?,AM_PM=" +:+
  Py.str (Py.hour t / 12) +:+ ",HOUR=" +:+ Py.str (Py.hour t mod 12) +:+
  ",HOUR_OF_DAY=" +:+ Py.str (Py.hour t) +:+ ",MINUTE=" +:+
  Py.str (Py.minute t) +:+ ",SECOND=" +:+ Py.str (Py.second t) +:+
  ",MILLISECOND=0,ZONE_OFFSET=?,DST_OFFSET=?]".

(** An engine that returns the rows of a [distinct], of a [join] and of a
    dataset it reads in reverse. *)
Definition jvm : engine :=
  {| calendar_string := gregorian_calendar_text; shuffle := reverse |}.

(** The same engine with any other text for a [datetime]. *)
Definition jvm_with (text : Py.datetime → string) : engine :=
  {| calendar_string := text; shuffle := reverse |}.

Definition hello : SongRecord :=
  {| song_id := "S1"; title := Some "Hello"; artist_id := "A1";
     artist_name := Some "Adele"; artist_location := None;
     artist_latitude := None; artist_longitude := None;
     year := 2000; duration := Py.Float 361 (-1) |}.

(** A second song with the title of [hello]. *)
Definition hello_cover : SongRecord :=
  {| song_id := "S2"; title := Some "Hello"; artist_id := "A2";
     artist_name := Some "Lionel"; artist_location := Some "AL";
     artist_latitude := None; artist_longitude := None;
     year := 1984; duration := Py.Float 493 (-1) |}.

Definition untitled : SongRecord :=
  {| song_id := "S3"; title := None; artist_id := "A3";
     artist_name := None; artist_location := None;
     artist_latitude := None; artist_longitude := None;
     year := 0; duration := Py.Float 0 0 |}.

Definition play : LogEvent :=
  {| ts := 1541121934796; userId := Some "10"; firstName := Some "Sylvie";
     lastName := Some "Cruz"; gender := Some "F"; level := Some "free";
     sessionId := 5; location := Some "NY"; userAgent := Some "X";
     song := Some "Hello"; page := Some "NextSong" |}.

(** The same user one session later, at the same millisecond. *)
Definition play_again : LogEvent :=
  {| ts := 1541121934796; userId := Some "10"; firstName := Some "Sylvie";
     lastName := Some "Cruz"; gender := Some "F"; level := Some "free";
     sessionId := 6; location := Some "NY"; userAgent := Some "X";
     song := Some "Hello"; page := Some "NextSong" |}.

(** A play of a song that is not in the song data. *)
Definition play_unknown : LogEvent :=
  {| ts := 1541121935000; userId := Some "11"; firstName := Some "Ryan";
     lastName := Some "Smith"; gender := Some "M"; level := Some "paid";
     sessionId := 7; location := Some "CA"; userAgent := Some "Y";
     song := Some "Goodbye"; page := Some "NextSong" |}.

(** An event that is not a play and names no song. *)
Definition login : LogEvent :=
  {| ts := 1541121936000; userId := Some "10"; firstName := Some "Sylvie";
     lastName := Some "Cruz"; gender := Some "F"; level := Some "free";
     sessionId := 5; location := Some "NY"; userAgent := Some "X";
     song := None; page := Some "Login" |}.

(** A page view that happens to carry the title of a song. *)
Definition home : LogEvent :=
  {| ts := 1541121937000; userId := Some "10"; firstName := Some "Sylvie";
     lastName := Some "Cruz"; gender := Some "F"; level := Some "free";
     sessionId := 5; location := Some "NY"; userAgent := Some "X";
     song := Some "Hello"; page := Some "Home" |}.

(** An event of the first second of the year 10000, UTC. *)
Definition far_future : LogEvent :=
  {| ts := 253402300800000; userId := Some "12"; firstName := Some "Ada";
     lastName := Some "Yu"; gender := Some "F"; level := Some "paid";
     sessionId := 9; location := Some "WA"; userAgent := Some "Z";
     song := Some "Hello"; page := Some "NextSong" |}.

(** The input of the example of the spec, with a login and an unknown
    song. *)
Definition listening : source :=
  {| song_data := [hello; untitled];
     log_data := [play; login; play_unknown] |}.

(** Two recordings of one title, one of them listed twice. *)
Definition covers : source :=
  {| song_data := [hello; hello_cover; hello];
     log_data := [login; play; play_unknown] |}.

(** Two runs that share a timestamp and nothing else. *)
Definition first_night : source :=
  {| song_data := [hello]; log_data := [login; play] |}.

Definition second_night : source :=
  {| song_data := [hello_cover; untitled]; log_data := [play_again] |}.

(** A log with an event that no [datetime] can hold. *)
Definition overdue : source :=
  {| song_data := [hello]; log_data := [play; far_future] |}.

(** Inputs with no event, and with no song. *)
Definition silence : source :=
  {| song_data := [hello]; log_data := [] |}.

Definition no_songs : source :=
  {| song_data := []; log_data := [play; login] |}.

End Samples.

(** ** Facts about the Python expressions *)

Section PyFacts.

Lemma round_half_even_bounds num den :
  num / den ≤ Py.round_half_even num den ≤ num / den + 1.
Proof.
  unfold Py.round_half_even.
  repeat case_match; lia.
Qed.

(** The quotient is rounded up only when the remainder is at least half
    of the divisor. *)
Lemma round_half_even_up num :
  Py.round_half_even num 1000 = num / 1000 + 1 → 500 ≤ num mod 1000.
Proof.
  unfold Py.round_half_even. repeat case_match; lia.
Qed.

Lemma log2_quot_1000_bounds a :
  0 < a < Py.exact_bound →
  -10 ≤ Py.log2_quot a 1000 ≤ 44 ∧
  (Py.log2_quot a 1000 = 44 → 17592186044416000 ≤ a).
Proof.
  unfold Py.exact_bound. intros [Ha1 Ha2]. unfold Py.log2_quot.
  change (Z.log2 1000) with 9.
  assert (0 ≤ Z.log2 a) by apply Z.log2_nonneg.
  assert (Z.log2 a < 54).
  { apply Z.log2_lt_pow2; [done|].
    change (2 ^ 54) with 18014398509481984. lia. }
  destruct (decide (Z.log2 a = 53)) as [E|NE].
  - rewrite E. change (53 - 9) with 44.
    rewrite (Z.max_l 44 0), (Z.max_r (Z.opp 44) 0) by lia.
    case_match eqn:Hc; [|lia].
    apply Z.leb_le in Hc.
    change (1000 * 2 ^ 44) with 17592186044416000 in Hc.
    change (2 ^ 0) with 1 in Hc. lia.
  - case_match; lia.
Qed.

Lemma int_div_1000_pos a :
  0 < a < Py.exact_bound → Py.int_div_1000 a = Some (a / 1000).
Proof.
  intros Ha. pose proof (log2_quot_1000_bounds a Ha) as [Hk Hk44].
  unfold Py.exact_bound in Ha.
  unfold Py.int_div_1000, Py.truediv.
  destruct a as [|p|p]; [lia| |lia].
  unfold Py.truediv_pos.
  set (e := Py.log2_quot (Z.pos p) 1000 - 52) in *.
  assert (He : -62 ≤ e ≤ -8) by lia.
  rewrite (Z.max_l (- e) 0), (Z.max_r e 0) by lia.
  rewrite (proj2 (Z.leb_gt 0 e)) by lia.
  cbn [andb fmap option_fmap option_map].
  f_equal. unfold Py.int_of_float. cbn [Py.expo Py.mant].
  rewrite (proj2 (Z.leb_gt 0 e)) by lia.
  change (1000 * 2 ^ 0) with 1000.
  assert (0 ≤ Z.pos p / 1000) by (apply Z.div_pos; lia).
  assert (e = -8 ∨ e = -9 ∨ e ≤ -10) as [He8|[He9|He10]] by lia.
  - (* one integer part of 45 bits: the fraction is at most 998/1000 *)
    assert (17592186044416000 ≤ Z.pos p) by (apply Hk44; lia).
    rewrite He8. change (2 ^ (- -8)) with 256.
    pose proof (round_half_even_up (Z.pos p * 256)) as Hup.
    pose proof (round_half_even_bounds (Z.pos p * 256) 1000) as Hm.
    set (m := Py.round_half_even _ _) in *.
    pose proof (Z.div_mod (Z.pos p) 1000 ltac:(lia)) as Hq.
    pose proof (Z.mod_pos_bound (Z.pos p) 1000 ltac:(lia)) as Ht.
    pose proof (Z.div_mod (Z.pos p * 256) 1000 ltac:(lia)) as Hq0.
    pose proof (Z.mod_pos_bound (Z.pos p * 256) 1000 ltac:(lia)) as Ht0.
    set (q := Z.pos p / 1000) in *. set (t := Z.pos p mod 1000) in *.
    set (m0 := Z.pos p * 256 / 1000) in *.
    set (r := (Z.pos p * 256) mod 1000) in *.
    clearbody m q t m0 r.
    rewrite Z.quot_div_nonneg by lia.
    symmetry. apply Z.div_unique with (r := m - q * 256); lia.
  - rewrite He9. change (2 ^ (- -9)) with 512.
    pose proof (round_half_even_up (Z.pos p * 512)) as Hup.
    pose proof (round_half_even_bounds (Z.pos p * 512) 1000) as Hm.
    set (m := Py.round_half_even _ _) in *.
    pose proof (Z.div_mod (Z.pos p) 1000 ltac:(lia)) as Hq.
    pose proof (Z.mod_pos_bound (Z.pos p) 1000 ltac:(lia)) as Ht.
    pose proof (Z.div_mod (Z.pos p * 512) 1000 ltac:(lia)) as Hq0.
    pose proof (Z.mod_pos_bound (Z.pos p * 512) 1000 ltac:(lia)) as Ht0.
    set (q := Z.pos p / 1000) in *. set (t := Z.pos p mod 1000) in *.
    set (m0 := Z.pos p * 512 / 1000) in *.
    set (r := (Z.pos p * 512) mod 1000) in *.
    clearbody m q t m0 r.
    rewrite Z.quot_div_nonneg by lia.
    symmetry. apply Z.div_unique with (r := m - q * 512); lia.
  - pose proof (round_half_even_bounds (Z.pos p * 2 ^ (- e)) 1000) as Hm.
    set (m := Py.round_half_even _ _) in *.
    assert (HP : 2 ^ 10 ≤ 2 ^ (- e)) by (apply Z.pow_le_mono_r; lia).
    change (2 ^ 10) with 1024 in HP.
    set (P := 2 ^ (- e)) in *.
    pose proof (Z.div_mod (Z.pos p) 1000 ltac:(lia)) as Hq.
    pose proof (Z.mod_pos_bound (Z.pos p) 1000 ltac:(lia)) as Ht.
    pose proof (Z.div_mod (Z.pos p * P) 1000 ltac:(lia)) as Hq0.
    pose proof (Z.mod_pos_bound (Z.pos p * P) 1000 ltac:(lia)) as Ht0.
    set (q := Z.pos p / 1000) in *. set (t := Z.pos p mod 1000) in *.
    set (m0 := Z.pos p * P / 1000) in *.
    set (r := (Z.pos p * P) mod 1000) in *.
    assert (q * P ≤ m0) by nia.
    assert (m0 + 1 < (q + 1) * P) by nia.
    rewrite Z.quot_div_nonneg by nia.
    symmetry. apply Z.div_unique with (r := m - q * P); nia.
Qed.

Lemma int_div_1000_small x :
  - Py.exact_bound < x < Py.exact_bound →
  Py.int_div_1000 x = Some (Z.quot x 1000).
Proof.
  intros Hx.
  destruct x as [|p|p].
  - reflexivity.
  - rewrite int_div_1000_pos by lia.
    by rewrite Z.quot_div_nonneg by lia.
  - pose proof (int_div_1000_pos (Z.pos p) ltac:(lia)) as Hp.
    unfold Py.int_div_1000, Py.truediv in *.
    change (- Z.neg p) with (Z.pos p).
    destruct (Py.truediv_pos (Z.pos p) 1000) as [[m e]|]; [|done].
    cbn in *. injection Hp as Hp. f_equal.
    change (Z.neg p) with (- Z.pos p).
    rewrite Z.quot_opp_l by lia.
    rewrite (Z.quot_div_nonneg (Z.pos p)) by lia. rewrite <- Hp.
    unfold Py.int_of_float. cbn [Py.mant Py.expo].
    case_match; [lia|].
    apply Z.quot_opp_l. apply Z.pow_nonzero; lia.
Qed.

(** At [Py.exact_bound] the binary64 quotient rounds up to the next
    integer; one below it does not. *)
Example int_div_1000_rounds_up :
  Py.int_div_1000 17592186044416999 = Some 17592186044417 ∧
  Py.int_div_1000 17592186044416998 = Some 17592186044416.
Proof. split; reflexivity. Qed.

(** [1 / 1000] is the binary64 number [0x1.0624dd2f1a9fcp-10]. *)
Example truediv_one_thousandth :
  Py.truediv 1 1000 = Some (Py.Float 0x10624dd2f1a9fc (-62)).
Proof. reflexivity. Qed.

Example truediv_three_halves :
  Py.truediv 1500 1000 = Some (Py.Float (3 * 2 ^ 51) (-52)).
Proof. reflexivity. Qed.

(** Dates around the turn of an ISO year: 2021-01-01 is a Friday of week 53
    of 2020, and 2024-12-31 is a Tuesday of week 1 of 2025. *)
Example isocalendar_2021_01_01 :
  Py.localtime (λ _, 0) 1609459200 = Py.Datetime 2021 1 1 0 0 0 0 ∧
  Py.weekday (Py.Datetime 2021 1 1 0 0 0 0) = 4 ∧
  Py.isocalendar (Py.Datetime 2021 1 1 0 0 0 0) = (2020, 53, 5).
Proof. repeat split. Qed.

Example isocalendar_2024_12_31 :
  Py.localtime (λ _, 0) 1735603200 = Py.Datetime 2024 12 31 0 0 0 0 ∧
  Py.weekday (Py.Datetime 2024 12 31 0 0 0 0) = 1 ∧
  Py.isocalendar (Py.Datetime 2024 12 31 0 0 0 0) = (2025, 1, 2).
Proof. repeat split. Qed.

(** A zone five hours west of UTC reads the epoch as the evening before. *)
Example localtime_west :
  Py.fromtimestamp (λ _, -18000) 0 = Some (Py.Datetime 1969 12 31 19 0 0 0).
Proof. reflexivity. Qed.

(** The last second of 9999 has a datetime and the next one has none; nor
    has any second of the first day of year 1, whose probe 24 hours back
    reads year 0. *)
Example fromtimestamp_range :
  Py.fromtimestamp (λ _, 0) 253402300799 =
    Some (Py.Datetime 9999 12 31 23 59 59 0) ∧
  Py.fromtimestamp (λ _, 0) 253402300800 = None ∧
  Py.fromtimestamp (λ _, 0) (-62135596800) = None ∧
  Py.fromtimestamp (λ _, 0) (-62135510401) = None ∧
  Py.fromtimestamp (λ _, 0) (-62135510400) = Some (Py.Datetime 1 1 2 0 0 0 0).
Proof. repeat split. Qed.

(** Where the offset goes down by an hour at second 1000, the local hour
    from 01:16:40 is read twice, the second time with [fold = 1]. *)
Example fromtimestamp_fold :
  let zone := λ t, if t <? 1000 then 7200 else 3600 in
  Py.fromtimestamp zone 999 = Some (Py.Datetime 1970 1 1 2 16 39 0) ∧
  Py.fromtimestamp zone 1000 = Some (Py.Datetime 1970 1 1 1 16 40 1) ∧
  Py.fromtimestamp zone 4599 = Some (Py.Datetime 1970 1 1 2 16 39 1) ∧
  Py.fromtimestamp zone 4600 = Some (Py.Datetime 1970 1 1 2 16 40 0).
Proof. repeat split. Qed.

End PyFacts.

(** ** Properties *)

Section Props.
Import Spark Etl Tables.

(** *** The relational operators on explicit rows *)

Lemma mapM_map_ok {A B C} (f : B → result C) (g : A → B) (h : A → C) l :
  (∀ x, x ∈ l → f (g x) = Ok (h x)) →
  mapM f (map g l) = Ok (map h l).
Proof.
  induction l as [|x l IH]; intros Hf; [done|].
  cbn. rewrite Hf by left. cbn.
  rewrite IH; [done|]. intros y Hy. apply Hf. by right.
Qed.

Lemma select_as_rows df cs ixs :
  mapM (λ c, resolve (columns df) c.1) cs = Ok ixs →
  select_as df cs =
    Ok {| columns := cs.*2;
          rows := map (λ r, map (λ i, cell i r) ixs) (rows df) |}.
Proof. unfold select_as. by intros ->. Qed.

Lemma withColumn_append {A} cols (g : A → row) l name f src i (h : A → pyobj) :
  resolve cols src = Ok i →
  name ∉ cols →
  (∀ x, x ∈ l → f (cell i (g x)) = Ok (h x)) →
  withColumn {| columns := cols; rows := map g l |} name f src =
    Ok {| columns := cols ++ [name];
          rows := map (λ x, g x ++ [VPy (h x)]) l |}.
Proof.
  intros Hi Hn Hf. unfold withColumn. cbn. rewrite Hi. cbn.
  rewrite (mapM_map_ok _ g (λ x, g x ++ [VPy (h x)])).
  - cbn. by rewrite bool_decide_eq_false_2.
  - intros x Hx. rewrite Hf by done. cbn.
    unfold set_cell. by rewrite bool_decide_eq_false_2.
Qed.

Lemma bind_map_rows {A B C} (g : A → B) (k : B → list C) (l : list A) :
  map g l ≫= k = l ≫= (λ x, k (g x)).
Proof. induction l as [|x l IH]; [done|]. cbn. by rewrite IH. Qed.

Lemma map_bind_rows {A B C} (f : B → C) (k : A → list B) (l : list A) :
  map f (l ≫= k) = l ≫= (λ x, map f (k x)).
Proof.
  induction l as [|x l IH]; [done|]. cbn. by rewrite map_app, IH.
Qed.

Lemma bind_rows_ext {A B} (k1 k2 : A → list B) (l : list A) :
  (∀ x, x ∈ l → k1 x = k2 x) → l ≫= k1 = l ≫= k2.
Proof.
  intros H. induction l as [|x l IH]; [done|]. cbn.
  rewrite H by left. rewrite IH; [done|]. intros y Hy. apply H. by right.
Qed.

Lemma bind_rows_perm {A B} (k1 k2 : A → list B) (l : list A) :
  (∀ x, x ∈ l → k1 x ≡ₚ k2 x) → l ≫= k1 ≡ₚ l ≫= k2.
Proof.
  intros H. induction l as [|x l IH]; [done|]. cbn.
  apply Permutation_app; [apply H; left|].
  apply IH. intros y Hy. apply H. by right.
Qed.

(** *** The store *)

Lemma lookup_overwrite path p (st : storage) k :
  overwrite path p st !! k =
    if decide (k = path) then Some p
    else if decide (under path k) then None else st !! k.
Proof.
  unfold overwrite. destruct (decide (k = path)) as [->|Hne].
  - by rewrite lookup_insert_eq.
  - rewrite lookup_insert_ne by done. rewrite map_lookup_filter.
    destruct (st !! k) as [x|]; cbn; [|by destruct (decide _)].
    destruct (decide (under path k)).
    + by rewrite option_guard_False by (cbn; tauto).
    + by rewrite option_guard_True.
Qed.

Section Host.

Variable tz : Z → Z.
Variable E : engine.

(** *** Cells as the engine holds them *)

Lemma materialize_idem v : materialize E (materialize E v) = materialize E v.
Proof. by destruct v as [| | | |[]]. Qed.

Lemma materialize_str_cell o : materialize E (str_cell o) = str_cell o.
Proof. by destruct o. Qed.

Lemma materialize_double_cell o :
  materialize E (double_cell o) = double_cell o.
Proof. by destruct o. Qed.

Lemma stored_idem l : stored E (stored E l) = stored E l.
Proof.
  unfold stored. rewrite map_map. apply map_ext. intros r.
  rewrite map_map. apply map_ext. intros v. apply materialize_idem.
Qed.

Lemma stored_song_rows l : stored E (map song_row l) = map song_row l.
Proof.
  unfold stored. rewrite map_map. apply map_ext. intros r. cbn.
  by rewrite materialize_str_cell.
Qed.

Lemma stored_artist_rows l : stored E (map artist_row l) = map artist_row l.
Proof.
  unfold stored. rewrite map_map. apply map_ext. intros r. cbn.
  by rewrite !materialize_str_cell, !materialize_double_cell.
Qed.

Lemma stored_user_rows l : stored E (map user_row l) = map user_row l.
Proof.
  unfold stored. rewrite map_map. apply map_ext. intros r. cbn.
  by rewrite !materialize_str_cell.
Qed.

Lemma stored_fixed l :
  (∀ r, r ∈ l → map (materialize E) r = r) → stored E l = l.
Proof.
  intros H. unfold stored. induction l as [|r l IH]; [done|].
  cbn. rewrite H by left. f_equal. apply IH. intros r' Hr'. apply H.
  by right.
Qed.

Lemma write_parquet_ok df ps path (st : storage) ixs :
  mapM (resolve (columns df)) ps = Ok ixs →
  NoDup (columns df) →
  write_parquet E df ps path st =
    Ok (overwrite path (table (columns df) (stored E (rows df)) ps) st).
Proof.
  intros Hps Hnd. unfold write_parquet. rewrite Hps.
  cbn [mbind result_bind]. by rewrite bool_decide_eq_true_2.
Qed.

(** *** The lambdas on a valid timestamp *)

Lemma get_datetime_valid e :
  valid_ts tz (ts e) = true →
  get_datetime tz (VLong (ts e)) = Ok (PyDatetime (start_time tz e)).
Proof.
  unfold valid_ts, get_datetime, start_time, seconds, Py.fromtimestamp. cbn.
  destruct (Py.int_div_1000 (ts e)) as [q|]; [|done]. cbn.
  by intros ->.
Qed.

Lemma get_timestamp_valid e :
  valid_ts tz (ts e) = true →
  get_timestamp (VLong (ts e)) = Ok (PyStr (Py.str (seconds (ts e)))).
Proof.
  unfold valid_ts, get_timestamp, seconds. cbn.
  by destruct (Py.int_div_1000 (ts e)).
Qed.

(** *** The tables of the two functions *)

Lemma songs_table_rows recs :
  recs ≠ [] →
  songs_table E (read_song_json recs) =
    Ok {| columns := ["song_id"; "title"; "artist_id"; "year"; "duration"];
          rows := shuffle E (remove_dups (map song_row recs)) |}.
Proof.
  intros Hne. unfold songs_table, select.
  rewrite (select_as_rows _ _ [6; 7; 0; 8; 5]%nat)
    by (by destruct recs).
  cbn [fmap result_fmap]. unfold distinct. cbn [columns rows map snd].
  unfold read_song_json. cbn [rows]. rewrite map_map.
  change (map _ recs) with (map song_row recs).
  by rewrite stored_song_rows.
Qed.

Lemma artists_table_rows recs :
  recs ≠ [] →
  artists_table E (read_song_json recs) =
    Ok {| columns := ["artist_id"; "name"; "location"; "latitude";
                      "longitude"];
          rows := shuffle E (remove_dups (map artist_row recs)) |}.
Proof.
  intros Hne. unfold artists_table.
  rewrite (select_as_rows _ _ [0; 4; 2; 1; 3]%nat)
    by (by destruct recs).
  cbn [fmap result_fmap]. unfold distinct. cbn [columns rows map snd].
  unfold read_song_json. cbn [rows]. rewrite map_map.
  change (map _ recs) with (map artist_row recs).
  by rewrite stored_artist_rows.
Qed.

Lemma users_table_rows evs :
  evs ≠ [] →
  users_table (read_log_json evs) =
    Ok {| columns := ["userId"; "firstName"; "lastName"; "gender"; "level"];
          rows := map user_row evs |}.
Proof.
  intros Hne. unfold users_table, select.
  rewrite (select_as_rows _ _ [10; 0; 2; 1; 3]%nat)
    by (by destruct evs).
  cbn. by rewrite map_map.
Qed.

Ltac fresh_name := apply (bool_decide_unpack _); vm_compute; exact I.

Lemma with_time_columns_rows evs :
  evs ≠ [] →
  Forall (λ e, valid_ts tz (ts e) = true) evs →
  with_time_columns tz (read_log_json evs) =
    Ok {| columns := annotated_columns;
          rows := map (annotated_row tz) evs |}.
Proof.
  intros Hne Hv. rewrite Forall_forall in Hv.
  unfold with_time_columns, read_log_json.
  replace (match evs with [] => [] | _ => _ end)
    with ["firstName"; "gender"; "lastName"; "level"; "location"; "page";
          "sessionId"; "song"; "ts"; "userAgent"; "userId"]
    by (by destruct evs).
  erewrite (withColumn_append _ _ _ "timestamp" _ "ts" 8
              (λ e, PyStr (Py.str (seconds (ts e)))));
    [|reflexivity|fresh_name|intros e He; apply get_timestamp_valid; auto].
  cbn [mbind result_bind app].
  erewrite (withColumn_append _ _ _ "start_time" _ "ts" 8
              (λ e, PyDatetime (start_time tz e)));
    [|reflexivity|fresh_name|intros e He; apply get_datetime_valid; auto].
  cbn [mbind result_bind app].
  erewrite (withColumn_append _ _ _ "hour" _ "start_time" 12
              (λ e, PyInt (Py.hour (start_time tz e))));
    [|reflexivity|fresh_name|done].
  cbn [mbind result_bind app].
  erewrite (withColumn_append _ _ _ "day" _ "start_time" 12
              (λ e, PyInt (Py.day (start_time tz e))));
    [|reflexivity|fresh_name|done].
  cbn [mbind result_bind app].
  erewrite (withColumn_append _ _ _ "week" _ "start_time" 12
              (λ e, PyStr (nth (Z.to_nat (Py.weekday (start_time tz e)))
                               Py.day_name "")));
    [|reflexivity|fresh_name|done].
  cbn [mbind result_bind app].
  erewrite (withColumn_append _ _ _ "month" _ "start_time" 12
              (λ e, PyInt (Py.month (start_time tz e))));
    [|reflexivity|fresh_name|done].
  cbn [mbind result_bind app].
  erewrite (withColumn_append _ _ _ "year" _ "start_time" 12
              (λ e, PyInt (Py.year (start_time tz e))));
    [|reflexivity|fresh_name|done].
  cbn [mbind result_bind app].
  erewrite (withColumn_append _ _ _ "weekday" _ "start_time" 12
              (λ e, PyInt (Py.isocalendar (start_time tz e)).1.2));
    [|reflexivity|fresh_name|done].
  reflexivity.
Qed.

(** The time table as it is written. *)
Lemma time_table_rows evs :
  ∃ T,
    time_table {| columns := annotated_columns;
                  rows := map (annotated_row tz) evs |} = Ok T ∧
    columns T = ["start_time"; "hour"; "day"; "week"; "month"; "year";
                 "weekday"] ∧
    stored E (rows T) = map (time_row tz E) evs.
Proof.
  eexists. split.
  { unfold time_table, select.
    by rewrite (select_as_rows _ _ [12; 13; 14; 15; 16; 17; 18]%nat). }
  split; [done|]. cbn [rows]. unfold stored. by rewrite !map_map.
Qed.

(** The songplays table as it is written, on the songs read back. *)
Lemma songplays_table_rows evs songs :
  ∃ T,
    songplays_table E
      {| columns := annotated_columns; rows := map (annotated_row tz) evs |}
      {| columns := ["song_id"; "title"; "artist_id"; "year"; "duration"];
         rows := songs |} = Ok T ∧
    columns T = ["start_time"; "userId"; "level"; "song_id"; "artist_id";
                 "sessionId"; "location"; "userAgent"] ∧
    rows T =
      map (λ r, map (λ i, cell i r) [12; 10; 3; 19; 21; 6; 4; 9]%nat)
          (shuffle E (stored E (map (annotated_row tz) evs) ≫=
                        join_row 7 1 (stored E songs))).
Proof.
  eexists. split.
  { unfold songplays_table, join.
    replace (resolve _ "title") with (Ok (A:=nat) 1%nat) by reflexivity.
    replace (resolve _ "song") with (Ok (A:=nat) 7%nat) by reflexivity.
    cbn [mbind result_bind columns rows]. unfold select.
    by rewrite (select_as_rows _ _ [12; 10; 3; 19; 21; 6; 4; 9]%nat). }
  split; [done|]. done.
Qed.

(** *** The runs of the two functions and of [main] *)

Lemma process_song_data_ok inp out st :
  song_data inp ≠ [] →
  process_song_data E inp out st =
    Ok (overwrite (out +:+ "artists.parquet")
          (table ["artist_id"; "name"; "location"; "latitude"; "longitude"]
                 (artists_rows E inp) [])
       (overwrite (out +:+ "songs.parquet")
          (table ["song_id"; "title"; "artist_id"; "year"; "duration"]
                 (songs_rows E inp) []) st)).
Proof.
  intros Hne. unfold process_song_data.
  rewrite songs_table_rows by done. cbn [mbind result_bind].
  rewrite (write_parquet_ok _ _ _ _ [])
    by (done || (apply (bool_decide_unpack _); by vm_compute)).
  cbn [mbind result_bind].
  rewrite artists_table_rows by done. cbn [mbind result_bind].
  by rewrite (write_parquet_ok _ _ _ _ [])
    by (done || (apply (bool_decide_unpack _); by vm_compute)).
Qed.

Ltac other_key :=
  rewrite lookup_overwrite;
  rewrite (decide_False (P := _ = _)) by done;
  rewrite (decide_False (P := under _ _)) by (by vm_compute).

Lemma main_ok inp st :
  song_data inp ≠ [] →
  log_data inp ≠ [] →
  Forall (λ e, valid_ts tz (ts e) = true) (log_data inp) →
  main tz E inp st = Ok (output tz E inp st).
Proof.
  intros Hs Hl Hv. unfold main. rewrite process_song_data_ok by done.
  cbn [mbind result_bind]. unfold process_log_data.
  replace (select (read_log_json (log_data inp)) _)
    with (Ok {| columns := ["ts"; "userId"; "level"; "sessionId"; "location";
                            "userAgent"];
                rows := map (λ r, map (λ i, cell i r) [8; 10; 3; 6; 4; 9]%nat)
                            (rows (read_log_json (log_data inp))) |})
    by (symmetry; apply select_as_rows; by destruct (log_data inp)).
  cbn [mbind result_bind].
  rewrite users_table_rows by done. cbn [mbind result_bind].
  rewrite (write_parquet_ok _ _ _ _ [])
    by (done || (apply (bool_decide_unpack _); by vm_compute)).
  cbn [mbind result_bind columns rows]. rewrite stored_user_rows.
  rewrite with_time_columns_rows by done. cbn [mbind result_bind].
  destruct (time_table_rows (log_data inp)) as (T & -> & HTc & HTr).
  cbn [mbind result_bind].
  rewrite (write_parquet_ok _ _ _ _ [5; 4]%nat)
    by (rewrite HTc; done || (apply (bool_decide_unpack _); by vm_compute)).
  rewrite HTc, HTr. cbn [mbind result_bind].
  unfold read_parquet. cbn [String.append].
  do 3 other_key. rewrite lookup_overwrite, decide_True by done.
  cbv zeta. cbn [partitioned_by table data columns rows mbind result_bind].
  destruct (songplays_table_rows (log_data inp)
              (shuffle E (songs_rows E inp))) as (P & -> & HPc & HPr).
  cbn [mbind result_bind].
  rewrite (write_parquet_ok _ _ _ _ [])
    by (rewrite ?HPc; done || (apply (bool_decide_unpack _); by vm_compute)).
  rewrite HPc, HPr. reflexivity.
Qed.

(** The five tables of a run, whatever the bucket held before. *)
Lemma output_tables inp st :
  output tz E inp st !! "s3a://sparkify-dend/songs.parquet" =
    Some (table ["song_id"; "title"; "artist_id"; "year"; "duration"]
                (songs_rows E inp) []) ∧
  output tz E inp st !! "s3a://sparkify-dend/artists.parquet" =
    Some (table ["artist_id"; "name"; "location"; "latitude"; "longitude"]
                (artists_rows E inp) []) ∧
  output tz E inp st !! "s3a://sparkify-dend/users.parquet" =
    Some (table ["userId"; "firstName"; "lastName"; "gender"; "level"]
                (map user_row (log_data inp)) []) ∧
  output tz E inp st !! "s3a://sparkify-dend/time.parquet" =
    Some (table ["start_time"; "hour"; "day"; "week"; "month"; "year";
                 "weekday"]
                (map (time_row tz E) (log_data inp)) ["year"; "month"]) ∧
  output tz E inp st !! "s3a://sparkify-dend/songplays.parquet" =
    Some (table ["start_time"; "userId"; "level"; "song_id"; "artist_id";
                 "sessionId"; "location"; "userAgent"]
                (songplays_rows tz E inp) []).
Proof.
  unfold output.
  repeat split; repeat other_key; by rewrite lookup_overwrite, decide_True.
Qed.

(** A path that is none of the five and under none of them is as it
    was. *)
Lemma output_frame inp st p :
  p ∉ table_paths →
  (∀ q, q ∈ table_paths → ¬ under q p) →
  output tz E inp st !! p = st !! p.
Proof.
  intros Hp Hu. unfold output.
  repeat (rewrite lookup_overwrite;
          rewrite decide_False
            by (intros ->; apply Hp; unfold table_paths;
                repeat constructor);
          rewrite decide_False
            by (apply Hu; unfold table_paths; repeat constructor)).
  done.
Qed.

(** A path under one of the five is deleted. *)
Lemma output_under inp st p q :
  p ∉ table_paths → q ∈ table_paths → under q p →
  output tz E inp st !! p = None.
Proof.
  intros Hp Hq Hu. unfold output.
  repeat (rewrite lookup_overwrite;
          rewrite decide_False
            by (intros ->; apply Hp; unfold table_paths;
                repeat constructor);
          destruct (decide (under _ p)); [done|]).
  unfold table_paths in Hq.
  repeat (apply elem_of_cons in Hq as [->|Hq]; [done|]).
  by apply elem_of_nil in Hq.
Qed.

Section Run.

Variable inp : source.
Hypothesis Hsongs : song_data inp ≠ [].
Hypothesis Hlog : log_data inp ≠ [].
Hypothesis Hvalid : Forall (λ e, valid_ts tz (ts e) = true) (log_data inp).

Lemma written_ok name :
  written tz E inp name =
    data <$> output tz E inp ∅ !! ("s3a://sparkify-dend/" +:+ name).
Proof. unfold written. by rewrite main_ok. Qed.

Lemma written_songs :
  written tz E inp "songs.parquet" =
    Some {| columns := ["song_id"; "title"; "artist_id"; "year"; "duration"];
            rows := songs_rows E inp |}.
Proof.
  rewrite written_ok.
  destruct (output_tables inp ∅) as (H & _). cbn [String.append].
  exact (f_equal (fmap data) H).
Qed.

Lemma written_artists :
  written tz E inp "artists.parquet" =
    Some {| columns := ["artist_id"; "name"; "location"; "latitude";
                        "longitude"];
            rows := artists_rows E inp |}.
Proof.
  rewrite written_ok.
  destruct (output_tables inp ∅) as (_ & H & _).
  exact (f_equal (fmap data) H).
Qed.

Lemma written_users :
  written tz E inp "users.parquet" =
    Some {| columns := ["userId"; "firstName"; "lastName"; "gender"; "level"];
            rows := map user_row (log_data inp) |}.
Proof.
  rewrite written_ok.
  destruct (output_tables inp ∅) as (_ & _ & H & _).
  exact (f_equal (fmap data) H).
Qed.

Lemma written_time :
  written tz E inp "time.parquet" =
    Some {| columns := ["start_time"; "hour"; "day"; "week"; "month"; "year";
                        "weekday"];
            rows := map (time_row tz E) (log_data inp) |}.
Proof.
  rewrite written_ok.
  destruct (output_tables inp ∅) as (_ & _ & _ & H & _).
  exact (f_equal (fmap data) H).
Qed.

Lemma written_songplays :
  written tz E inp "songplays.parquet" =
    Some {| columns := ["start_time"; "userId"; "level"; "song_id";
                        "artist_id"; "sessionId"; "location"; "userAgent"];
            rows := songplays_rows tz E inp |}.
Proof.
  rewrite written_ok.
  destruct (output_tables inp ∅) as (_ & _ & _ & _ & H).
  exact (f_equal (fmap data) H).
Qed.

End Run.

(** *** The tables up to the order of the engine *)

Section Order.

Hypothesis Hperm : ∀ l, shuffle E l ≡ₚ l.

Lemma songs_rows_shuffle inp :
  songs_rows E inp = shuffle E (remove_dups (map song_row (song_data inp))).
Proof.
  unfold songs_rows. apply stored_fixed. intros r Hr.
  rewrite Hperm in Hr.
  apply elem_of_remove_dups, list_elem_of_fmap in Hr as (rec & -> & _).
  cbn. by rewrite materialize_str_cell.
Qed.

Lemma artists_rows_shuffle inp :
  artists_rows E inp =
    shuffle E (remove_dups (map artist_row (song_data inp))).
Proof.
  unfold artists_rows. apply stored_fixed. intros r Hr.
  rewrite Hperm in Hr.
  apply elem_of_remove_dups, list_elem_of_fmap in Hr as (rec & -> & _).
  cbn. by rewrite !materialize_str_cell, !materialize_double_cell.
Qed.

Lemma songs_rows_perm inp :
  songs_rows E inp ≡ₚ remove_dups (map song_row (song_data inp)).
Proof. by rewrite songs_rows_shuffle. Qed.

Lemma artists_rows_perm inp :
  artists_rows E inp ≡ₚ remove_dups (map artist_row (song_data inp)).
Proof. by rewrite artists_rows_shuffle. Qed.

Lemma elem_of_songs_rows inp s :
  s ∈ songs_rows E inp ↔ ∃ rec, rec ∈ song_data inp ∧ s = song_row rec.
Proof.
  rewrite songs_rows_perm, elem_of_remove_dups, list_elem_of_fmap.
  split; intros (rec & ? & ?); by exists rec.
Qed.

Lemma elem_of_artists_rows inp a :
  a ∈ artists_rows E inp ↔ ∃ rec, rec ∈ song_data inp ∧ a = artist_row rec.
Proof.
  rewrite artists_rows_perm, elem_of_remove_dups, list_elem_of_fmap.
  split; intros (rec & ? & ?); by exists rec.
Qed.

Lemma NoDup_songs_rows inp : NoDup (songs_rows E inp).
Proof. rewrite songs_rows_perm. apply NoDup_remove_dups. Qed.

Lemma NoDup_artists_rows inp : NoDup (artists_rows E inp).
Proof. rewrite artists_rows_perm. apply NoDup_remove_dups. Qed.

(** The songs rows read back for the join are those written. *)
Lemma song_df_rows_perm inp : song_df_rows E inp ≡ₚ songs_rows E inp.
Proof.
  unfold song_df_rows. rewrite stored_fixed; [apply Hperm|].
  intros r Hr. rewrite Hperm in Hr.
  apply elem_of_songs_rows in Hr as (rec & _ & ->).
  cbn. by rewrite materialize_str_cell.
Qed.

(** The songplays table is, up to order, the rows of each log event in
    turn. *)
Lemma songplays_rows_perm inp :
  songplays_rows tz E inp ≡ₚ
    log_data inp ≫= event_rows tz E (songs_rows E inp).
Proof.
  unfold songplays_rows, joined_rows.
  transitivity
    (stored E (map (λ r, map (λ i, cell i r)
                             [12; 10; 3; 19; 21; 6; 4; 9]%nat)
                   (stored E (map (annotated_row tz) (log_data inp)) ≫=
                      join_row 7 1 (songs_rows E inp)))).
  { unfold stored at 1 3. do 2 apply Permutation_map. rewrite Hperm.
    apply bind_rows_perm. intros l _. unfold join_row.
    apply Permutation_map. by rewrite song_df_rows_perm. }
  match goal with |- ?a ≡ₚ ?b => cut (a = b); [by intros ->|] end.
  unfold stored. rewrite map_map, bind_map_rows, !map_bind_rows.
  rewrite ?bind_map_rows.
  apply bind_rows_ext. intros e _.
  unfold join_row, event_rows, matching. rewrite !map_map.
  cbn [map cell nth annotated_row]. rewrite !materialize_str_cell.
  apply map_ext_in. intros s Hs.
  apply list_elem_of_In, list_elem_of_filter in Hs as [_ Hs].
  apply elem_of_songs_rows in Hs as (rec & _ & ->).
  cbn. by rewrite !materialize_str_cell.
Qed.

End Order.

End Host.

End Props.

(** ** The songplays table *)

Section Songplays.
Import Spark Etl Tables.

Variable tz : Z → Z.
Variable E : engine.

(** SQL equality is never true on a null song. *)
Lemma matching_null songs e : song e = None → matching songs e = [].
Proof.
  intros Hnull. unfold matching. rewrite Hnull.
  induction songs as [|s l IH]; [done|].
  rewrite filter_cons.
  destruct (decide _) as [(_ & Hn & _)|]; [done|exact IH].
Qed.

Lemma bind_filter_rows {A B} (P : A → Prop) `{∀ x, Decision (P x)}
    (f : A → list B) (l : list A) :
  (∀ x, ¬ P x → f x = []) → l ≫= f = filter P l ≫= f.
Proof.
  intros Hf. induction l as [|x l IH]; [done|].
  rewrite filter_cons. destruct (decide (P x)); cbn.
  - by rewrite IH.
  - by rewrite Hf, IH.
Qed.



(** C10. A log event whose song is null has no row in the songplays table,
    whatever the songs are, a song with a null title included: up to the
    order of the engine, the table is the rows of the events that have a
    song. *)
Theorem songplays_none_for_null_song inp e :
  (∀ l, shuffle E l ≡ₚ l) →
  song_data inp ≠ [] →
  Forall (λ e, valid_ts tz (ts e) = true) (log_data inp) →
  e ∈ log_data inp →
  song e = None →
  ∃ S T,
    written tz E inp "songs.parquet" = Some S ∧
    written tz E inp "songplays.parquet" = Some T ∧
    event_rows tz E (rows S) e = [] ∧
    rows T ≡ₚ log_data inp ≫= event_rows tz E (rows S) ∧
    rows T ≡ₚ
      filter (λ e, song e ≠ None) (log_data inp) ≫= event_rows tz E (rows S).
Proof.
  intros Hperm Hs Hv He Hnull.
  assert (log_data inp ≠ []) as Hl by (intros Hn; rewrite Hn in He; inversion He).
  eexists _, _.
  split; [by apply written_songs|]. split; [by apply written_songplays|].
  cbn [rows]. unfold event_rows at 1.
  split; [by rewrite matching_null|].
  split; [by apply songplays_rows_perm|].
  rewrite songplays_rows_perm by done.
  rewrite (bind_filter_rows (λ e, song e ≠ None)); [done|].
  intros e' Hn. unfold event_rows. rewrite matching_null; [done|].
  destruct (song e'); [|done]. by destruct Hn.
Qed.

(** C8. The time row of a log event is a function of its ts alone: in any
    two runs on the same host, at any two positions of their log streams,
    two events with the same ts have the same row in the time table (hour,
    day, week, month, year and weekday included), whatever else the events
    or the runs contain. *)
Theorem time_row_deterministic inp inp' i j e e' :
  song_data inp ≠ [] →
  song_data inp' ≠ [] →
  Forall (λ e, valid_ts tz (ts e) = true) (log_data inp) →
  Forall (λ e, valid_ts tz (ts e) = true) (log_data inp') →
  log_data inp !! i = Some e →
  log_data inp' !! j = Some e' →
  ts e = ts e' →
  ∃ T T' r,
    written tz E inp "time.parquet" = Some T ∧
    written tz E inp' "time.parquet" = Some T' ∧
    columns T = ["start_time"; "hour"; "day"; "week"; "month"; "year";
                 "weekday"] ∧
    columns T' = columns T ∧
    rows T !! i = Some r ∧
    rows T' !! j = Some r.
Proof.
  intros Hs Hs' Hv Hv' Hi Hj Hts.
  assert (log_data inp ≠ []) as Hl by (intros Hn; by rewrite Hn in Hi).
  assert (log_data inp' ≠ []) as Hl' by (intros Hn; by rewrite Hn in Hj).
  eexists _, _, (time_row tz E e).
  rewrite !written_time by done.
  split; [done|]. split; [done|]. split; [done|]. split; [done|].
  cbn [rows]. rewrite !list_lookup_fmap, Hi, Hj. cbn.
  split; [done|].
  unfold time_row, start_time. by rewrite Hts.
Qed.

End Songplays.

(** ** The dimension tables of the song data *)

Section SongTables.
Import Spark Etl Tables.

Lemma append_inj_l (p a b : string) : p +:+ a = p +:+ b → a = b.
Proof. induction p as [|c p IH]; cbn; [done|]. intros [=]. auto. Qed.

Lemma append_assoc (p a b : string) : (p +:+ a) +:+ b = p +:+ (a +:+ b).
Proof.
  induction p as [|c p IH]; [done|].
  change (String c ((p +:+ a) +:+ b) = String c (p +:+ (a +:+ b))).
  by rewrite IH.
Qed.

Lemma prefix_append_l (p a b : string) :
  String.prefix (p +:+ a) (p +:+ b) = String.prefix a b.
Proof.
  induction p as [|c p IH]; [done|].
  change (String c p +:+ a) with (String c (p +:+ a)).
  change (String c p +:+ b) with (String c (p +:+ b)).
  cbn [String.prefix]. by destruct (Ascii.ascii_dec c c).
Qed.

Lemma under_append_l (p a b : string) :
  under (p +:+ a) (p +:+ b) ↔ under a b.
Proof. unfold under. by rewrite append_assoc, prefix_append_l. Qed.

(** C7. Whatever the song records (there is at least one) and the order the
    engine leaves them in, [process_song_data] writes a songs table with no
    two equal rows (song_id, title, artist_id, year, duration) and an
    artists table with no two equal rows (artist_id, name, location,
    latitude, longitude); each holds exactly the projections of the
    records. *)
Theorem song_tables_have_no_duplicate_rows E inp out st :
  (∀ l, shuffle E l ≡ₚ l) →
  song_data inp ≠ [] →
  ∃ st' S A,
    process_song_data E inp out st = Ok st' ∧
    data <$> st' !! (out +:+ "songs.parquet") = Some S ∧
    data <$> st' !! (out +:+ "artists.parquet") = Some A ∧
    columns S = ["song_id"; "title"; "artist_id"; "year"; "duration"] ∧
    NoDup (rows S) ∧
    (∀ r, r ∈ rows S ↔
       ∃ rec, rec ∈ song_data inp ∧
         r = [VStr (song_id rec); str_cell (title rec); VStr (artist_id rec);
              VLong (year rec); VDouble (duration rec)]) ∧
    columns A = ["artist_id"; "name"; "location"; "latitude"; "longitude"] ∧
    NoDup (rows A) ∧
    (∀ r, r ∈ rows A ↔
       ∃ rec, rec ∈ song_data inp ∧
         r = [VStr (artist_id rec); str_cell (artist_name rec);
              str_cell (artist_location rec);
              double_cell (artist_latitude rec);
              double_cell (artist_longitude rec)]).
Proof.
  intros Hperm Hs.
  eexists _, _, _. split; [by apply process_song_data_ok|].
  split.
  { rewrite lookup_overwrite.
    rewrite decide_False by (intros H; by apply append_inj_l in H).
    rewrite decide_False by (rewrite under_append_l; by vm_compute).
    by rewrite lookup_overwrite, decide_True. }
  split; [by rewrite lookup_overwrite, decide_True|].
  cbn [columns rows data table].
  split; [done|]. split; [by apply NoDup_songs_rows|].
  split; [intros r; by apply elem_of_songs_rows|].
  split; [done|]. split; [by apply NoDup_artists_rows|].
  intros r; by apply elem_of_artists_rows.
Qed.

End SongTables.

(** ** The timestamp lambdas *)

Section Timestamp.
Import Spark Etl Tables Samples.

(** C6, as amended. For a ts of magnitude below 2^44 * 1000 + 999 the
    timestamp field is the decimal string of ts / 1000 truncated toward
    zero, which is floor(ts / 1000) when ts is not negative; start_time is
    made by [datetime.fromtimestamp] from that second, the lambda raising
    when [fromtimestamp] does, and the engine holds it as the text the JVM
    gives to that datetime. *)
Theorem timestamp_is_truncated_quotient tz E x :
  - Py.exact_bound < x < Py.exact_bound →
  get_timestamp (VLong x) = Ok (PyStr (Py.str (Z.quot x 1000))) ∧
  materialize E (VPy (PyStr (Py.str (Z.quot x 1000)))) =
    VStr (Py.str (Z.quot x 1000)) ∧
  get_datetime tz (VLong x) =
    of_option PythonException
      (PyDatetime <$> Py.fromtimestamp tz (Z.quot x 1000)) ∧
  (∀ t, Py.fromtimestamp tz (Z.quot x 1000) = Some t →
     get_datetime tz (VLong x) = Ok (PyDatetime t) ∧
     materialize E (VPy (PyDatetime t)) = VStr (calendar_string E t)) ∧
  (0 ≤ x → Z.quot x 1000 = x / 1000).
Proof.
  intros Hx. unfold get_timestamp, get_datetime. cbn [py_int mbind result_bind].
  rewrite (int_div_1000_small x Hx). cbn [of_option mbind result_bind].
  split; [done|]. split; [done|]. split.
  - by destruct (Py.fromtimestamp tz _).
  - split; [by intros t ->|].
    intros H0. apply Z.quot_div_nonneg; lia.
Qed.

End Timestamp.

(** ** The runs on the sample inputs *)

Section Runs.
Import Spark Etl Tables Samples.

(** C6, as stated, fails at ts = -1: the timestamp field is the string "0",
    neither the integer floor(-1 / 1000) = -1 nor its decimal string, and
    start_time is made from second 0, not from second -1. *)
Lemma timestamp_not_floor_at_minus_one :
  (-1) / 1000 = -1 ∧
  get_timestamp (VLong (-1)) = Ok (PyStr "0") ∧
  get_timestamp (VLong (-1)) ≠ Ok (PyInt ((-1) / 1000)) ∧
  get_timestamp (VLong (-1)) ≠ Ok (PyStr (Py.str ((-1) / 1000))) ∧
  get_datetime utc (VLong (-1)) =
    Ok (PyDatetime (Py.Datetime 1970 1 1 0 0 0 0)) ∧
  Py.fromtimestamp utc ((-1) / 1000) =
    Some (Py.Datetime 1969 12 31 23 59 59 0).
Proof. repeat split; by vm_compute. Qed.

(** C1 on the example of the spec. 2018-11-02 is a Friday of ISO week 44;
    the week field of its time row holds "Friday" and the weekday field
    holds the week number 44, whatever text the JVM gives to start_time. *)
Theorem week_and_weekday_are_swapped text :
  written utc (jvm_with text)
    {| song_data := [hello]; log_data := [play] |} "time.parquet" =
    Some {| columns := ["start_time"; "hour"; "day"; "week"; "month"; "year";
                        "weekday"];
            rows := [[VStr (text (Py.Datetime 2018 11 2 1 25 34 0));
                      VStr "1"; VStr "2"; VStr "Friday"; VStr "11";
                      VStr "2018"; VStr "44"]] |} ∧
  (Py.isocalendar (Py.Datetime 2018 11 2 1 25 34 0)).1.2 = 44 ∧
  nth (Z.to_nat (Py.weekday (Py.Datetime 2018 11 2 1 25 34 0))) Py.day_name ""
    = "Friday".
Proof. repeat split; by vm_compute. Qed.

(** C2 on a stream that holds the same event twice: the users table holds
    the same row twice. *)
Theorem users_are_not_deduplicated text :
  written utc (jvm_with text)
    {| song_data := [hello]; log_data := [play; play] |} "users.parquet" =
    Some {| columns := ["userId"; "firstName"; "lastName"; "gender"; "level"];
            rows := [[VStr "10"; VStr "Sylvie"; VStr "Cruz"; VStr "F";
                      VStr "free"];
                     [VStr "10"; VStr "Sylvie"; VStr "Cruz"; VStr "F";
                      VStr "free"]] |}.
Proof. by vm_compute. Qed.

(** C3 on the example of the spec: the songplays table that is written has
    eight columns, and songplay_id is not one of them. *)
Theorem songplays_have_no_songplay_id text :
  written utc (jvm_with text)
    {| song_data := [hello]; log_data := [play] |} "songplays.parquet" =
    Some {| columns := ["start_time"; "userId"; "level"; "song_id";
                        "artist_id"; "sessionId"; "location"; "userAgent"];
            rows := [[VStr (text (Py.Datetime 2018 11 2 1 25 34 0));
                      VStr "10"; VStr "free"; VStr "S1"; VStr "A1"; VLong 5;
                      VStr "NY"; VStr "X"]] |} ∧
  "songplay_id" ∉ ["start_time"; "userId"; "level"; "song_id"; "artist_id";
                   "sessionId"; "location"; "userAgent"].
Proof. split; [by vm_compute|]. apply (bool_decide_unpack _). by vm_compute. Qed.

(** C4 on two events of the same millisecond: the time table holds two rows
    with the same start_time. *)
Theorem time_rows_are_not_deduplicated text :
  ts play = ts play_again ∧
  written utc (jvm_with text)
    {| song_data := [hello]; log_data := [play; play_again] |}
    "time.parquet" =
    Some {| columns := ["start_time"; "hour"; "day"; "week"; "month"; "year";
                        "weekday"];
            rows := [[VStr (text (Py.Datetime 2018 11 2 1 25 34 0));
                      VStr "1"; VStr "2"; VStr "Friday"; VStr "11";
                      VStr "2018"; VStr "44"];
                     [VStr (text (Py.Datetime 2018 11 2 1 25 34 0));
                      VStr "1"; VStr "2"; VStr "Friday"; VStr "11";
                      VStr "2018"; VStr "44"]] |}.
Proof. split; by vm_compute. Qed.

End Runs.

(** ** Further properties of the runs *)

Section Totality.
Import Spark Etl Tables.

(** Every ordinal from 0001-01-01 to 9999-12-31 falls in a year that a
    [datetime] can hold. *)
Lemma ord2ymd_year_range o :
  1 ≤ o ≤ 3652059 → 1 ≤ (Py.ord2ymd o).1.1 ≤ 9999.
Proof.
  intros Ho. unfold Py.ord2ymd, Py.DI400Y, Py.DI100Y, Py.DI4Y.
  pose proof (Z.div_mod (o - 1) 146097 ltac:(lia)) as E1.
  pose proof (Z.mod_pos_bound (o - 1) 146097 ltac:(lia)) as B1.
  set (n400 := (o - 1) / 146097) in *.
  set (r400 := (o - 1) mod 146097) in *.
  pose proof (Z.div_mod r400 36524 ltac:(lia)) as E2.
  pose proof (Z.mod_pos_bound r400 36524 ltac:(lia)) as B2.
  set (n100 := r400 / 36524) in *. set (r100 := r400 mod 36524) in *.
  pose proof (Z.div_mod r100 1461 ltac:(lia)) as E3.
  pose proof (Z.mod_pos_bound r100 1461 ltac:(lia)) as B3.
  set (n4 := r100 / 1461) in *. set (r4 := r100 mod 1461) in *.
  pose proof (Z.div_mod r4 365 ltac:(lia)) as E4.
  pose proof (Z.mod_pos_bound r4 365 ltac:(lia)) as B4.
  set (n1 := r4 / 365) in *. set (r1 := r4 mod 365) in *.
  clearbody n400 r400 n100 r100 n4 r4 n1 r1.
  destruct (_ || _) eqn:Hor.
  - cbn [fst]. apply orb_true_iff in Hor. lia.
  - apply orb_false_iff in Hor as [H1 H2].
    apply Z.eqb_neq in H1, H2.
    destruct (_ <? _); cbn [fst]; lia.
Qed.

Lemma localtime_year tz t :
  Py.year (Py.localtime tz t) =
    (Py.ord2ymd (Py.EPOCH_ORDINAL + (t + tz t) / 86400)).1.1.
Proof.
  unfold Py.localtime.
  by destruct (Py.ord2ymd _) as [[y m] d].
Qed.

(** A local reading between three days before 1970 and the end of 9999 has
    a year that a [datetime] can hold. *)
Lemma year_ok_localtime tz u :
  -259200 ≤ u + tz u ≤ 253402300799 →
  Py.year_ok (Py.localtime tz u) = true.
Proof.
  intros Hu. unfold Py.year_ok. rewrite localtime_year.
  pose proof (ord2ymd_year_range
                (Py.EPOCH_ORDINAL + (u + tz u) / 86400)) as Hy.
  unfold Py.EPOCH_ORDINAL, Py.MINYEAR, Py.MAXYEAR in *.
  assert (-3 ≤ (u + tz u) / 86400 ≤ 2932896) as Hd.
  { split; [apply Z.div_le_lower_bound; lia|].
    apply Z.lt_succ_r, Z.div_lt_upper_bound; lia. }
  apply andb_true_iff. split; apply Z.leb_le; lia.
Qed.

(** From 1970 to the eve of the last day of 9999, on a host whose zone is
    within a day of UTC, both timestamp lambdas return. *)
Lemma valid_ts_modern tz x :
  (∀ t, -86400 ≤ tz t ≤ 86400) →
  0 ≤ x < 253402214400000 →
  valid_ts tz x = true.
Proof.
  intros Htz Hx. unfold valid_ts.
  rewrite int_div_1000_small by (unfold Py.exact_bound; lia).
  rewrite Z.quot_div_nonneg by lia.
  assert (0 ≤ x / 1000 < 253402214400) as Hq
    by (split; [apply Z.div_pos; lia|apply Z.div_lt_upper_bound; lia]).
  set (q := x / 1000) in *. clearbody q.
  unfold Py.representable, Py.transition, Py.max_fold_seconds.
  pose proof (Htz q). pose proof (Htz (q - 86400)).
  rewrite !year_ok_localtime by lia. cbn [andb].
  destruct (_ <? 0) eqn:Hneg; [|done].
  apply Z.ltb_lt in Hneg.
  pose proof (Htz (q + (tz q - tz (q - 86400)))).
  apply year_ok_localtime. lia.
Qed.

End Totality.

Section RunProperties.
Import Spark Etl Tables.

Variable tz : Z → Z.
Variable E : engine.

(** X1. On a host whose zone is within a day of UTC, [main] succeeds on
    every input with some song record and some log event whose timestamps
    lie between 1970-01-01 and 9999-12-31 00:00 UTC, and leaves the five
    tables in the bucket. *)
Theorem main_succeeds_on_modern_timestamps inp st :
  (∀ t, -86400 ≤ tz t ≤ 86400) →
  song_data inp ≠ [] →
  log_data inp ≠ [] →
  Forall (λ e, 0 ≤ ts e < 253402214400000) (log_data inp) →
  ∃ st',
    main tz E inp st = Ok st' ∧
    Forall (λ name, is_Some (st' !! ("s3a://sparkify-dend/" +:+ name)))
      ["songs.parquet"; "artists.parquet"; "users.parquet"; "time.parquet";
       "songplays.parquet"].
Proof.
  intros Htz Hs Hl Hts. exists (output tz E inp st). split.
  - apply main_ok; [done..|]. eapply Forall_impl; [exact Hts|].
    intros e He. by apply valid_ts_modern.
  - destruct (output_tables tz E inp st) as (H1 & H2 & H3 & H4 & H5).
    repeat constructor; eauto.
Qed.

Ltac absent_name := apply (bool_decide_unpack _); vm_compute; exact I.

(** A UDF column is not computed when the lambda raises on one row. *)
Lemma mapM_err {A B} (f : A → result B) (e : error) l :
  (∀ x, x ∈ l → (∃ y, f x = Ok y) ∨ f x = Err e) →
  Exists (λ x, f x = Err e) l →
  mapM f l = Err e.
Proof.
  induction l as [|x l IH]; intros Hf Hex; [by apply Exists_nil in Hex|].
  cbn. destruct (Hf x ltac:(left)) as [[y Hy]| ->]; [|done].
  rewrite Hy. cbn.
  apply Exists_cons in Hex as [Hx|Hex]; [congruence|].
  rewrite IH; [done| |done]. intros z Hz. apply Hf. by right.
Qed.

Lemma withColumn_err {A} cols (g : A → row) l name f src i e :
  resolve cols src = Ok i →
  (∀ x, x ∈ l → (∃ v, f (cell i (g x)) = Ok v) ∨ f (cell i (g x)) = Err e) →
  Exists (λ x, f (cell i (g x)) = Err e) l →
  withColumn {| columns := cols; rows := map g l |} name f src = Err e.
Proof.
  intros Hi Hf Hex. unfold withColumn. cbn [columns rows]. rewrite Hi.
  cbn [mbind result_bind].
  rewrite (mapM_err _ e); [done| |].
  - intros r Hr. apply list_elem_of_fmap in Hr as (x & -> & Hx).
    destruct (Hf x Hx) as [[v Hv]|Hv]; rewrite Hv; cbn; eauto.
  - apply Exists_exists in Hex as (x & Hx & Hv).
    apply Exists_exists. exists (g x).
    split; [by apply list_elem_of_fmap_2|]. by rewrite Hv.
Qed.

Lemma get_timestamp_cases x :
  (∃ v, get_timestamp (VLong x) = Ok v) ∨
  get_timestamp (VLong x) = Err PythonException.
Proof.
  unfold get_timestamp. cbn.
  destruct (Py.int_div_1000 x); cbn; eauto.
Qed.

Lemma get_datetime_cases x :
  (∃ v, get_datetime tz (VLong x) = Ok v) ∨
  get_datetime tz (VLong x) = Err PythonException.
Proof.
  unfold get_datetime. cbn.
  destruct (Py.int_div_1000 x) as [q|]; cbn; [|eauto].
  destruct (Py.fromtimestamp tz q); cbn; eauto.
Qed.

Lemma get_datetime_invalid x :
  valid_ts tz x = false →
  get_datetime tz (VLong x) = Err PythonException.
Proof.
  unfold valid_ts, get_datetime, Py.fromtimestamp. cbn.
  destruct (Py.int_div_1000 x) as [q|]; cbn; [|done].
  by intros ->.
Qed.

Lemma with_time_columns_err evs :
  Exists (λ e, valid_ts tz (ts e) = false) evs →
  with_time_columns tz (read_log_json evs) = Err PythonException.
Proof.
  intros Hex. unfold with_time_columns, read_log_json.
  replace (match evs with [] => [] | _ => _ end)
    with ["firstName"; "gender"; "lastName"; "level"; "location"; "page";
          "sessionId"; "song"; "ts"; "userAgent"; "userId"]
    by (destruct evs; [by apply Exists_nil in Hex|done]).
  destruct (decide (Exists (λ e, Py.int_div_1000 (ts e) = None) evs))
    as [Hov|Hov].
  - erewrite (withColumn_err _ _ _ "timestamp" _ "ts" 8 PythonException);
      [done|reflexivity| |].
    + intros e _. apply get_timestamp_cases.
    + eapply Exists_impl; [exact Hov|]. intros e He. cbn.
      unfold get_timestamp. cbn. by rewrite He.
  - apply not_Exists_Forall in Hov; [|apply _].
    rewrite Forall_forall in Hov.
    erewrite (withColumn_append _ _ _ "timestamp" _ "ts" 8
                (λ e, PyStr (Py.str (seconds (ts e)))));
      [|reflexivity|absent_name|].
    + cbn [mbind result_bind app].
      erewrite (withColumn_err _ _ _ "start_time" _ "ts" 8 PythonException);
        [done|reflexivity| |].
      * intros e _. apply get_datetime_cases.
      * eapply Exists_impl; [exact Hex|]. intros e He.
        by apply get_datetime_invalid.
    + intros e He. specialize (Hov e He). cbn in Hov |- *.
      unfold get_timestamp, seconds. cbn.
      by destruct (Py.int_div_1000 (ts e)).
Qed.

(** The start of [process_log_data] on a log that is not empty: the dead
    projection and the users table. *)
Lemma process_log_data_start inp out st :
  log_data inp ≠ [] →
  process_log_data tz E inp out st =
    (df ← with_time_columns tz (read_log_json (log_data inp));
     time ← time_table df;
     st ← write_parquet E time ["year"; "month"] (out +:+ "time.parquet")
            (overwrite (out +:+ "users.parquet")
               (table ["userId"; "firstName"; "lastName"; "gender"; "level"]
                      (map user_row (log_data inp)) []) st);
     song_df ← read_parquet E (out +:+ "songs.parquet") st;
     songplays ← songplays_table E df song_df;
     write_parquet E songplays [] (out +:+ "songplays.parquet") st).
Proof.
  intros Hl. unfold process_log_data.
  replace (select (read_log_json (log_data inp)) _)
    with (Ok {| columns := ["ts"; "userId"; "level"; "sessionId"; "location";
                            "userAgent"];
                rows := map (λ r, map (λ i, cell i r) [8; 10; 3; 6; 4; 9]%nat)
                            (rows (read_log_json (log_data inp))) |})
    by (symmetry; apply select_as_rows; by destruct (log_data inp)).
  cbn [mbind result_bind].
  rewrite users_table_rows by done. cbn [mbind result_bind].
  rewrite (write_parquet_ok _ _ _ _ _ [])
    by (done || (apply (bool_decide_unpack _); by vm_compute)).
  cbn [mbind result_bind columns rows]. by rewrite stored_user_rows.
Qed.

(** X2. When the song data is not empty, one log event whose timestamp
    makes a lambda raise makes the whole run of [main] fail with the error
    of the lambda, whatever the other events are. *)
Theorem main_fails_on_invalid_timestamp inp st :
  song_data inp ≠ [] →
  Exists (λ e, valid_ts tz (ts e) = false) (log_data inp) →
  main tz E inp st = Err PythonException.
Proof.
  intros Hs Hex.
  assert (log_data inp ≠ []) as Hl
    by (intros Hn; rewrite Hn in Hex; by apply Exists_nil in Hex).
  unfold main. rewrite process_song_data_ok by done.
  cbn [mbind result_bind]. rewrite process_log_data_start by done.
  by rewrite with_time_columns_err.
Qed.

Lemma write_parquet_inv df ps path (st st' : storage) :
  write_parquet E df ps path st = Ok st' →
  ∃ p, st' = overwrite path p st.
Proof.
  unfold write_parquet. destruct (mapM _ ps); cbn; [|done].
  case_bool_decide; [|done]. intros [= <-]. eauto.
Qed.

Lemma read_parquet_missing path (st : storage) :
  st !! path = None → read_parquet E path st = Err AnalysisException.
Proof. unfold read_parquet. by intros ->. Qed.

(** X3. [process_log_data] cannot succeed on a bucket that holds no songs
    table under [output_data]: it reads the table back after writing users
    and time, so on valid timestamps the run ends in an AnalysisException. *)
Theorem process_log_data_needs_songs inp out (st : storage) :
  st !! (out +:+ "songs.parquet") = None →
  (∀ st', process_log_data tz E inp out st ≠ Ok st') ∧
  (Forall (λ e, valid_ts tz (ts e) = true) (log_data inp) →
   process_log_data tz E inp out st = Err AnalysisException).
Proof.
  intros Hnone.
  assert (∀ (p1 p2 : parquet),
            overwrite (out +:+ "time.parquet") p2
              (overwrite (out +:+ "users.parquet") p1 st)
            !! (out +:+ "songs.parquet") = None) as Hst.
  { intros p1 p2. rewrite !lookup_overwrite.
    rewrite !(decide_False (P := _ = _))
      by (intros H; by apply append_inj_l in H).
    by repeat destruct (decide (under _ _)). }
  split.
  - intros st' H. unfold process_log_data in H. cbv zeta in H.
    destruct (select _ _) as [d0|]; cbn [mbind result_bind] in H; [|done].
    destruct (users_table _) as [users|]; cbn [mbind result_bind] in H;
      [|done].
    destruct (write_parquet E users _ _ _) as [st1|] eqn:W1;
      cbn [mbind result_bind] in H; [|done].
    destruct (with_time_columns _ _) as [df|];
      cbn [mbind result_bind] in H; [|done].
    destruct (time_table _) as [time|]; cbn [mbind result_bind] in H; [|done].
    destruct (write_parquet E time _ _ _) as [st2|] eqn:W2;
      cbn [mbind result_bind] in H; [|done].
    apply write_parquet_inv in W1 as [p1 ->].
    apply write_parquet_inv in W2 as [p2 ->].
    by rewrite read_parquet_missing in H.
  - intros Hv. destruct (decide (log_data inp = [])) as [Hl|Hl].
    { unfold process_log_data. by rewrite Hl. }
    rewrite process_log_data_start by done.
    rewrite with_time_columns_rows by done. cbn [mbind result_bind].
    destruct (time_table_rows tz E (log_data inp)) as (T & -> & HTc & HTr).
    cbn [mbind result_bind].
    rewrite (write_parquet_ok _ _ _ _ _ [5; 4]%nat)
      by (rewrite HTc; done || (apply (bool_decide_unpack _); by vm_compute)).
    cbn [mbind result_bind].
    by rewrite read_parquet_missing.
Qed.

(** X4. Overwrite: the five tables a run of [main] leaves do not depend on
    what the bucket held before; what was under the path of one of them is
    deleted; every path that is none of the five and under none of them is
    left as it was. *)
Theorem main_overwrites_its_tables_only inp (st1 st2 : storage) :
  song_data inp ≠ [] →
  log_data inp ≠ [] →
  Forall (λ e, valid_ts tz (ts e) = true) (log_data inp) →
  ∃ st1' st2',
    main tz E inp st1 = Ok st1' ∧
    main tz E inp st2 = Ok st2' ∧
    (∀ p, p ∈ table_paths →
       is_Some (st1' !! p) ∧ st1' !! p = st2' !! p) ∧
    (∀ p q, p ∉ table_paths → q ∈ table_paths → under q p →
       st1' !! p = None) ∧
    (∀ p, p ∉ table_paths → (∀ q, q ∈ table_paths → ¬ under q p) →
       st1' !! p = st1 !! p).
Proof.
  intros Hs Hl Hv. exists (output tz E inp st1), (output tz E inp st2).
  split; [by apply main_ok|]. split; [by apply main_ok|].
  split; [|split; [intros p q; by apply output_under|
                   intros p; by apply output_frame]].
  destruct (output_tables tz E inp st1) as (A1 & A2 & A3 & A4 & A5).
  destruct (output_tables tz E inp st2) as (B1 & B2 & B3 & B4 & B5).
  intros p Hp. unfold table_paths in Hp.
  apply elem_of_cons in Hp as [->|Hp]; [by rewrite A1, B1|].
  apply elem_of_cons in Hp as [->|Hp]; [by rewrite A2, B2|].
  apply elem_of_cons in Hp as [->|Hp]; [by rewrite A3, B3|].
  apply elem_of_cons in Hp as [->|Hp]; [by rewrite A4, B4|].
  apply elem_of_cons in Hp as [->|Hp]; [by rewrite A5, B5|].
  by apply elem_of_nil in Hp.
Qed.

Lemma output_output inp st :
  output tz E inp (output tz E inp st) = output tz E inp st.
Proof.
  apply map_eq. intros p.
  destruct (output_tables tz E inp st) as (A1 & A2 & A3 & A4 & A5).
  destruct (output_tables tz E inp (output tz E inp st))
    as (B1 & B2 & B3 & B4 & B5).
  destruct (decide (p ∈ table_paths)) as [Hp|Hp].
  { unfold table_paths in Hp.
    repeat (apply elem_of_cons in Hp as [->|Hp]; [congruence|]).
    by apply elem_of_nil in Hp. }
  destruct (decide (Exists (λ q, under q p) table_paths)) as [Hu|Hu].
  - apply Exists_exists in Hu as (q & Hq & Hu).
    by rewrite !(output_under _ _ _ _ p q).
  - assert (∀ q, q ∈ table_paths → ¬ under q p) as Hn.
    { intros q Hq Hqp. apply Hu, Exists_exists. eauto. }
    by rewrite !output_frame.
Qed.

(** X5. Idempotence: a second run of [main] on the same input, on the
    bucket the first run left, succeeds and leaves the bucket unchanged. *)
Theorem main_twice_is_main_once inp st :
  song_data inp ≠ [] →
  log_data inp ≠ [] →
  Forall (λ e, valid_ts tz (ts e) = true) (log_data inp) →
  ∃ st', main tz E inp st = Ok st' ∧ main tz E inp st' = Ok st'.
Proof.
  intros Hs Hl Hv. exists (output tz E inp st).
  split; [by apply main_ok|].
  rewrite main_ok by done. by rewrite output_output.
Qed.

Lemma sql_eq_title rec e :
  sql_eq (cell 1 (song_row rec)) (str_cell (song e)) ↔
  ∃ t, song e = Some t ∧ title rec = Some t.
Proof.
  unfold sql_eq. cbn.
  destruct (title rec) as [t1|], (song e) as [t2|]; cbn; split.
  - intros (_ & _ & [= ->]). eauto.
  - intros (t & [= ->] & [= ->]). done.
  - by intros (_ & ? & _).
  - by intros (t & ? & _).
  - by intros (? & _).
  - by intros (t & _ & ?).
  - by intros (? & _).
  - by intros (t & ? & _).
Qed.

(** On a valid timestamp, [start_time] is the datetime that
    [fromtimestamp] makes. *)
Lemma start_time_valid e :
  valid_ts tz (ts e) = true →
  ∃ q, Py.int_div_1000 (ts e) = Some q ∧
       Py.fromtimestamp tz q = Some (start_time tz e).
Proof.
  unfold valid_ts, start_time, seconds, Py.fromtimestamp.
  destruct (Py.int_div_1000 (ts e)) as [q|]; [|done].
  intros Hq. exists q. split; [done|]. cbn. by rewrite Hq.
Qed.

(** X6. The songplays table holds exactly the pairs of a log event and a
    song whose title is the song of the event, neither being null: each row
    is the text of the start_time of the event, its user, level, session,
    location and agent, with the song_id and artist_id of the song. *)
Theorem songplays_are_the_title_matches inp :
  (∀ l, shuffle E l ≡ₚ l) →
  song_data inp ≠ [] →
  log_data inp ≠ [] →
  Forall (λ e, valid_ts tz (ts e) = true) (log_data inp) →
  ∃ T,
    written tz E inp "songplays.parquet" = Some T ∧
    ∀ r, r ∈ rows T ↔
      ∃ e rec t q d,
        e ∈ log_data inp ∧ rec ∈ song_data inp ∧
        song e = Some t ∧ title rec = Some t ∧
        Py.int_div_1000 (ts e) = Some q ∧
        Py.fromtimestamp tz q = Some d ∧
        r = [VStr (calendar_string E d); str_cell (userId e);
             str_cell (level e); VStr (song_id rec); VStr (artist_id rec);
             VLong (sessionId e); str_cell (location e);
             str_cell (userAgent e)].
Proof.
  intros Hperm Hs Hl Hv. eexists. split; [by apply written_songplays|].
  cbn [rows]. intros r. rewrite songplays_rows_perm by done.
  unfold event_rows, matching.
  rewrite list_elem_of_bind. rewrite Forall_forall in Hv.
  split.
  - intros (e & Hr & He).
    apply list_elem_of_fmap in Hr as (s & -> & Hsr).
    apply list_elem_of_filter in Hsr as [Heq Hsr].
    apply elem_of_songs_rows in Hsr as (rec & Hrec & ->); [|done].
    apply sql_eq_title in Heq as (t & Ht1 & Ht2).
    destruct (start_time_valid e (Hv e He)) as (q & Hq & Hd).
    exists e, rec, t, q, (start_time tz e). by repeat (split; [done|]).
  - intros (e & rec & t & q & d & He & Hrec & Ht1 & Ht2 & Hq & Hd & ->).
    exists e. split; [|done].
    destruct (start_time_valid e (Hv e He)) as (q' & Hq' & Hd').
    assert (d = start_time tz e) as -> by congruence.
    apply list_elem_of_fmap. exists (song_row rec). split; [done|].
    apply list_elem_of_filter. split; [apply sql_eq_title; eauto|].
    apply elem_of_songs_rows; eauto.
Qed.

Lemma localtime_hour t :
  0 ≤ Py.hour (Py.localtime tz t) ≤ 23.
Proof.
  unfold Py.localtime. destruct (Py.ord2ymd _) as [[y m] d]. cbn [Py.hour].
  pose proof (Z.mod_pos_bound (t + tz t) 86400 ltac:(lia)).
  split; [apply Z.div_pos; lia|].
  apply Z.lt_succ_r, Z.div_lt_upper_bound; lia.
Qed.

Lemma day_name_weekday t :
  nth (Z.to_nat (Py.weekday t)) Py.day_name "" ∈ Py.day_name.
Proof.
  unfold Py.weekday.
  pose proof (Z.mod_pos_bound (Py.toordinal t + 6) 7 ltac:(lia)) as Hw.
  set (w := (Py.toordinal t + 6) mod 7) in *. clearbody w.
  assert (w = 0 ∨ w = 1 ∨ w = 2 ∨ w = 3 ∨ w = 4 ∨ w = 5 ∨ w = 6) as Hc by lia.
  destruct Hc as [->|[->|[->|[->|[->|[->| ->]]]]]]; cbn;
    apply (bool_decide_unpack _); by vm_compute.
Qed.

(** X7. The time table has exactly one row per log event, in the order of
    the log, duplicates of a timestamp included, and every cell is a
    string.  Row i holds the text the JVM gives to the datetime that
    [fromtimestamp] makes of the ts of event i cut to seconds, then the
    decimal strings of its hour (from 0 to 23) and day, in column week the
    English name of its day of the week, the decimal strings of its month
    and year, and in column weekday that of its ISO week number. *)
Theorem time_table_rows_follow_the_log inp :
  song_data inp ≠ [] →
  log_data inp ≠ [] →
  Forall (λ e, valid_ts tz (ts e) = true) (log_data inp) →
  ∃ T,
    written tz E inp "time.parquet" = Some T ∧
    length (rows T) = length (log_data inp) ∧
    ∀ i e, log_data inp !! i = Some e →
      ∃ q t,
        Py.int_div_1000 (ts e) = Some q ∧
        Py.fromtimestamp tz q = Some t ∧
        rows T !! i =
          Some [VStr (calendar_string E t); VStr (Py.str (Py.hour t));
                VStr (Py.str (Py.day t));
                VStr (nth (Z.to_nat (Py.weekday t)) Py.day_name "");
                VStr (Py.str (Py.month t)); VStr (Py.str (Py.year t));
                VStr (Py.str (Py.isocalendar t).1.2)] ∧
        0 ≤ Py.hour t ≤ 23 ∧
        nth (Z.to_nat (Py.weekday t)) Py.day_name "" ∈ Py.day_name.
Proof.
  intros Hs Hl Hv. eexists. split; [by apply written_time|].
  cbn [rows]. split; [by rewrite length_map|].
  intros i e Hi. rewrite Forall_forall in Hv.
  assert (e ∈ log_data inp) as He by (by eapply list_elem_of_lookup_2).
  destruct (start_time_valid e (Hv e He)) as (q & Hq & Hd).
  exists q, (start_time tz e).
  split; [done|]. split; [done|].
  split; [by rewrite list_lookup_fmap, Hi|].
  split; [apply localtime_hour|apply day_name_weekday].
Qed.

(** X8. The users table has exactly one row per log event, in the order of
    the log: row i is the userId, firstName, lastName, gender and level of
    event i, so a user appears once for every event of theirs. *)
Theorem users_table_rows_follow_the_log inp :
  song_data inp ≠ [] →
  log_data inp ≠ [] →
  Forall (λ e, valid_ts tz (ts e) = true) (log_data inp) →
  ∃ T,
    written tz E inp "users.parquet" = Some T ∧
    columns T = ["userId"; "firstName"; "lastName"; "gender"; "level"] ∧
    length (rows T) = length (log_data inp) ∧
    ∀ i e, log_data inp !! i = Some e →
      rows T !! i =
        Some [str_cell (userId e); str_cell (firstName e);
              str_cell (lastName e); str_cell (gender e);
              str_cell (level e)].
Proof.
  intros Hs Hl Hv. eexists. split; [by apply written_users|].
  cbn [rows columns]. split; [done|]. split; [by rewrite length_map|].
  intros i e Hi. by rewrite list_lookup_fmap, Hi.
Qed.

(** X10. With no song data, nothing can be projected from the song
    DataFrame: [process_song_data] raises an AnalysisException, and so does
    [main], before any table is written. *)
Theorem main_fails_on_empty_song_data inp out st :
  song_data inp = [] →
  process_song_data E inp out st = Err AnalysisException ∧
  main tz E inp st = Err AnalysisException.
Proof.
  intros Hs. unfold main, process_song_data. by rewrite Hs.
Qed.

(** X9. On an empty log [main] raises an AnalysisException, whatever the
    songs are: no column is inferred from no event, and the first
    projection of [process_log_data] fails. *)
Theorem main_fails_on_empty_log inp st :
  log_data inp = [] →
  main tz E inp st = Err AnalysisException.
Proof.
  intros Hl. destruct (decide (song_data inp = [])) as [Hs|Hs].
  { unfold main, process_song_data. by rewrite Hs. }
  unfold main. rewrite process_song_data_ok by done.
  cbn [mbind result_bind]. unfold process_log_data. by rewrite Hl.
Qed.

Lemma remove_dups_NoDup {A} `{EqDecision A} (l : list A) :
  NoDup l → remove_dups l = l.
Proof.
  induction 1 as [|x l Hx Hl IH]; [done|].
  cbn [remove_dups]. destruct (decide_rel _ x l); [done|by rewrite IH].
Qed.

Lemma matching_none songs e :
  (∀ s, s ∈ songs → cell 1 s ≠ str_cell (song e)) → matching songs e = [].
Proof.
  unfold matching. induction songs as [|s l IH]; intros Hn; [done|].
  rewrite filter_cons. destruct (decide _) as [(_ & _ & Heq)|].
  - by destruct (Hn s ltac:(left)).
  - apply IH. intros s' Hs'. apply Hn. by right.
Qed.

Lemma matching_unique_titles songs e :
  NoDup (map (cell 1) songs) → (length (matching songs e) ≤ 1)%nat.
Proof.
  induction songs as [|s l IH]; intros Hnd; [cbn; lia|].
  cbn [map] in Hnd. apply NoDup_cons in Hnd as [Hs Hl].
  unfold matching. rewrite filter_cons.
  destruct (decide _) as [(_ & _ & Heq)|]; [|by apply IH].
  fold (matching l e). rewrite matching_none; [cbn; lia|].
  intros s' Hs' Heq'. apply Hs. rewrite Heq, <- Heq'.
  by apply list_elem_of_fmap_2.
Qed.

Lemma length_bind_le {A B} (f : A → list B) (l : list A) :
  (∀ x, (length (f x) ≤ 1)%nat) → (length (l ≫= f) ≤ length l)%nat.
Proof.
  intros Hf. induction l as [|x l IH]; [done|].
  cbn. rewrite length_app. specialize (Hf x). lia.
Qed.

Lemma NoDup_title_cells songs :
  NoDup (map title songs) → NoDup (map (cell 1) (map song_row songs)).
Proof.
  induction songs as [|r l IH]; cbn [map]; intros H; [constructor|].
  apply NoDup_cons in H as [Hr Hl]. apply NoDup_cons. split; [|auto].
  intros Hin. apply Hr.
  apply list_elem_of_fmap in Hin as (s & Hs & Hin).
  apply list_elem_of_fmap in Hin as (r' & -> & Hr').
  apply list_elem_of_fmap. exists r'. split; [|done].
  cbn in Hs. destruct (title r), (title r'); cbn in Hs; congruence.
Qed.

(** X11. When no two song records have the same title, every log event has
    at most one songplays row: the songplays table has no more rows than
    the log has events. *)
Theorem songplays_at_most_one_per_event inp :
  (∀ l, shuffle E l ≡ₚ l) →
  song_data inp ≠ [] →
  log_data inp ≠ [] →
  Forall (λ e, valid_ts tz (ts e) = true) (log_data inp) →
  NoDup (map title (song_data inp)) →
  ∃ T,
    written tz E inp "songplays.parquet" = Some T ∧
    (length (rows T) ≤ length (log_data inp))%nat.
Proof.
  intros Hperm Hs Hl Hv Hnd. eexists. split; [by apply written_songplays|].
  cbn [rows]. rewrite songplays_rows_perm by done.
  apply length_bind_le. intros e.
  unfold event_rows. rewrite length_map. apply matching_unique_titles.
  rewrite songs_rows_perm by done.
  pose proof (NoDup_title_cells _ Hnd) as Hc.
  rewrite remove_dups_NoDup; [done|]. by eapply NoDup_fmap_1.
Qed.

(** X12. The keys of the songplays table resolve: every songplays row has
    its start_time in the time table, its user and level in the users
    table, its song_id with its artist_id in the songs table, and its
    artist_id in the artists table. *)
Theorem songplays_keys_resolve inp :
  (∀ l, shuffle E l ≡ₚ l) →
  song_data inp ≠ [] →
  log_data inp ≠ [] →
  Forall (λ e, valid_ts tz (ts e) = true) (log_data inp) →
  ∃ P T U S A,
    written tz E inp "songplays.parquet" = Some P ∧
    written tz E inp "time.parquet" = Some T ∧
    written tz E inp "users.parquet" = Some U ∧
    written tz E inp "songs.parquet" = Some S ∧
    written tz E inp "artists.parquet" = Some A ∧
    ∀ r, r ∈ rows P →
      (∃ t, t ∈ rows T ∧ cell 0 t = cell 0 r) ∧
      (∃ u, u ∈ rows U ∧ cell 0 u = cell 1 r ∧ cell 4 u = cell 2 r) ∧
      (∃ s, s ∈ rows S ∧ cell 0 s = cell 3 r ∧ cell 2 s = cell 4 r) ∧
      (∃ a, a ∈ rows A ∧ cell 0 a = cell 4 r).
Proof.
  intros Hperm Hs Hl Hv. eexists _, _, _, _, _.
  split; [by apply written_songplays|]. split; [by apply written_time|].
  split; [by apply written_users|]. split; [by apply written_songs|].
  split; [by apply written_artists|].
  cbn [rows]. intros r Hr. rewrite songplays_rows_perm in Hr by done.
  unfold event_rows, matching in Hr.
  apply list_elem_of_bind in Hr as (e & Hr & He).
  apply list_elem_of_fmap in Hr as (s & -> & Hsr).
  apply list_elem_of_filter in Hsr as [_ Hsr].
  pose proof Hsr as Hs'.
  apply elem_of_songs_rows in Hs' as (rec & Hrec & ->); [|done].
  split; [exists (time_row tz E e); split;
            [by apply list_elem_of_fmap_2|done]|].
  split; [exists (user_row e); split;
            [by apply list_elem_of_fmap_2|done]|].
  split; [exists (song_row rec); by split|].
  exists (artist_row rec). split; [|done].
  apply elem_of_artists_rows; eauto.
Qed.

End RunProperties.

(** ** The statements at the sample inputs *)

Section Witnesses.
Import Spark Etl Tables Samples.

Lemma jvm_shuffle l : shuffle jvm l ≡ₚ l.
Proof. apply reverse_Permutation. Qed.

Lemma listening_valid :
  Forall (λ e, valid_ts utc (ts e) = true) (log_data listening).
Proof. repeat constructor. Qed.

Lemma listening_songs : song_data listening ≠ [].
Proof. done. Qed.

Lemma listening_log : log_data listening ≠ [].
Proof. done. Qed.



Lemma songplays_none_for_null_song_witness :
  (∀ l, shuffle jvm l ≡ₚ l) ∧
  song_data listening ≠ [] ∧
  Forall (λ e, valid_ts utc (ts e) = true) (log_data listening) ∧
  login ∈ log_data listening ∧
  song login = None ∧
  ∃ S T,
    written utc jvm listening "songs.parquet" = Some S ∧
    written utc jvm listening "songplays.parquet" = Some T ∧
    event_rows utc jvm (rows S) login = [] ∧
    rows T ≡ₚ log_data listening ≫= event_rows utc jvm (rows S) ∧
    rows T ≡ₚ
      filter (λ e, song e ≠ None) (log_data listening) ≫=
        event_rows utc jvm (rows S).
Proof.
  assert (login ∈ log_data listening) as He by (right; left).
  split; [exact jvm_shuffle|]. split; [exact listening_songs|].
  split; [exact listening_valid|]. split; [exact He|].
  split; [reflexivity|].
  exact (songplays_none_for_null_song utc jvm listening login jvm_shuffle
           listening_songs listening_valid He eq_refl).
Defined.

Lemma time_row_deterministic_witness :
  song_data first_night ≠ [] ∧
  song_data second_night ≠ [] ∧
  Forall (λ e, valid_ts utc (ts e) = true) (log_data first_night) ∧
  Forall (λ e, valid_ts utc (ts e) = true) (log_data second_night) ∧
  log_data first_night !! 1%nat = Some play ∧
  log_data second_night !! 0%nat = Some play_again ∧
  ts play = ts play_again ∧
  ∃ T T' r,
    written utc jvm first_night "time.parquet" = Some T ∧
    written utc jvm second_night "time.parquet" = Some T' ∧
    columns T = ["start_time"; "hour"; "day"; "week"; "month"; "year";
                 "weekday"] ∧
    columns T' = columns T ∧
    rows T !! 1%nat = Some r ∧
    rows T' !! 0%nat = Some r.
Proof.
  assert (song_data first_night ≠ []) as Hs by done.
  assert (song_data second_night ≠ []) as Hs' by done.
  assert (Forall (λ e, valid_ts utc (ts e) = true) (log_data first_night))
    as Hv by (repeat constructor).
  assert (Forall (λ e, valid_ts utc (ts e) = true) (log_data second_night))
    as Hv' by (repeat constructor).
  split; [exact Hs|]. split; [exact Hs'|].
  split; [exact Hv|]. split; [exact Hv'|].
  split; [reflexivity|]. split; [reflexivity|]. split; [reflexivity|].
  exact (time_row_deterministic utc jvm first_night second_night 1%nat 0%nat
           play play_again Hs Hs' Hv Hv' eq_refl eq_refl eq_refl).
Defined.

Lemma song_tables_have_no_duplicate_rows_witness :
  (∀ l, shuffle jvm l ≡ₚ l) ∧
  song_data covers ≠ [] ∧
  ∃ st' S A,
    process_song_data jvm covers "s3a://sparkify-dend/" ∅ = Ok st' ∧
    data <$> st' !! ("s3a://sparkify-dend/" +:+ "songs.parquet") = Some S ∧
    data <$> st' !! ("s3a://sparkify-dend/" +:+ "artists.parquet") = Some A ∧
    columns S = ["song_id"; "title"; "artist_id"; "year"; "duration"] ∧
    NoDup (rows S) ∧
    (∀ r, r ∈ rows S ↔
       ∃ rec, rec ∈ song_data covers ∧
         r = [VStr (song_id rec); str_cell (title rec); VStr (artist_id rec);
              VLong (year rec); VDouble (duration rec)]) ∧
    columns A = ["artist_id"; "name"; "location"; "latitude"; "longitude"] ∧
    NoDup (rows A) ∧
    (∀ r, r ∈ rows A ↔
       ∃ rec, rec ∈ song_data covers ∧
         r = [VStr (artist_id rec); str_cell (artist_name rec);
              str_cell (artist_location rec);
              double_cell (artist_latitude rec);
              double_cell (artist_longitude rec)]).
Proof.
  assert (song_data covers ≠ []) as Hs by done.
  split; [exact jvm_shuffle|]. split; [exact Hs|].
  exact (song_tables_have_no_duplicate_rows jvm covers "s3a://sparkify-dend/"
           ∅ jvm_shuffle Hs).
Defined.

Lemma timestamp_is_truncated_quotient_witness :
  - Py.exact_bound < 1541121934796 < Py.exact_bound ∧
  get_timestamp (VLong 1541121934796) =
    Ok (PyStr (Py.str (Z.quot 1541121934796 1000))) ∧
  materialize jvm (VPy (PyStr (Py.str (Z.quot 1541121934796 1000)))) =
    VStr (Py.str (Z.quot 1541121934796 1000)) ∧
  get_datetime utc (VLong 1541121934796) =
    of_option PythonException
      (PyDatetime <$> Py.fromtimestamp utc (Z.quot 1541121934796 1000)) ∧
  (∀ t, Py.fromtimestamp utc (Z.quot 1541121934796 1000) = Some t →
     get_datetime utc (VLong 1541121934796) = Ok (PyDatetime t) ∧
     materialize jvm (VPy (PyDatetime t)) = VStr (calendar_string jvm t)) ∧
  (0 ≤ 1541121934796 → Z.quot 1541121934796 1000 = 1541121934796 / 1000).
Proof.
  assert (- Py.exact_bound < 1541121934796 < Py.exact_bound) as Hx
    by (split; reflexivity).
  split; [exact Hx|].
  exact (timestamp_is_truncated_quotient utc jvm 1541121934796 Hx).
Defined.

Lemma main_succeeds_on_modern_timestamps_witness :
  (∀ t, -86400 ≤ utc t ≤ 86400) ∧
  song_data listening ≠ [] ∧
  log_data listening ≠ [] ∧
  Forall (λ e, 0 ≤ ts e < 253402214400000) (log_data listening) ∧
  ∃ st',
    main utc jvm listening ∅ = Ok st' ∧
    Forall (λ name, is_Some (st' !! ("s3a://sparkify-dend/" +:+ name)))
      ["songs.parquet"; "artists.parquet"; "users.parquet"; "time.parquet";
       "songplays.parquet"].
Proof.
  assert (∀ t, -86400 ≤ utc t ≤ 86400) as Htz by (intros t; unfold utc; lia).
  assert (Forall (λ e, 0 ≤ ts e < 253402214400000) (log_data listening))
    as Hts by (unfold listening; cbn [log_data];
               repeat (apply Forall_cons; split; [split; by vm_compute|]);
               constructor).
  split; [exact Htz|]. split; [exact listening_songs|].
  split; [exact listening_log|]. split; [exact Hts|].
  exact (main_succeeds_on_modern_timestamps utc jvm listening ∅ Htz
           listening_songs listening_log Hts).
Defined.

Lemma main_fails_on_invalid_timestamp_witness :
  song_data overdue ≠ [] ∧
  Exists (λ e, valid_ts utc (ts e) = false) (log_data overdue) ∧
  main utc jvm overdue ∅ = Err PythonException.
Proof.
  assert (song_data overdue ≠ []) as Hs by done.
  assert (Exists (λ e, valid_ts utc (ts e) = false) (log_data overdue))
    as Hex by (apply Exists_cons_tl, Exists_cons_hd; reflexivity).
  split; [exact Hs|]. split; [exact Hex|].
  exact (main_fails_on_invalid_timestamp utc jvm overdue ∅ Hs Hex).
Defined.

Lemma process_log_data_needs_songs_witness :
  (∅ : storage) !! ("s3a://sparkify-dend/" +:+ "songs.parquet") = None ∧
  (∀ st',
     process_log_data utc jvm listening "s3a://sparkify-dend/" ∅ ≠ Ok st') ∧
  process_log_data utc jvm listening "s3a://sparkify-dend/" ∅ =
    Err AnalysisException.
Proof.
  assert ((∅ : storage) !! ("s3a://sparkify-dend/" +:+ "songs.parquet") =
            None) as Hnone by reflexivity.
  split; [exact Hnone|].
  destruct (process_log_data_needs_songs utc jvm listening
              "s3a://sparkify-dend/" ∅ Hnone) as [H1 H2].
  split; [exact H1|exact (H2 listening_valid)].
Defined.

Lemma main_overwrites_its_tables_only_witness :
  song_data listening ≠ [] ∧
  log_data listening ≠ [] ∧
  Forall (λ e, valid_ts utc (ts e) = true) (log_data listening) ∧
  ∃ st1' st2',
    main utc jvm listening
      {["s3a://sparkify-dend/songs.parquet/old" := table ["title"] [] [];
        "s3a://sparkify-dend/readme" := table ["text"] [] []]} = Ok st1' ∧
    main utc jvm listening ∅ = Ok st2' ∧
    (∀ p, p ∈ table_paths →
       is_Some (st1' !! p) ∧ st1' !! p = st2' !! p) ∧
    (∀ p q, p ∉ table_paths → q ∈ table_paths → under q p →
       st1' !! p = None) ∧
    (∀ p, p ∉ table_paths → (∀ q, q ∈ table_paths → ¬ under q p) →
       st1' !! p =
         ({["s3a://sparkify-dend/songs.parquet/old" := table ["title"] [] [];
            "s3a://sparkify-dend/readme" := table ["text"] [] []]}
          : storage) !! p).
Proof.
  split; [exact listening_songs|]. split; [exact listening_log|].
  split; [exact listening_valid|].
  exact (main_overwrites_its_tables_only utc jvm listening _ ∅
           listening_songs listening_log listening_valid).
Defined.

Lemma main_twice_is_main_once_witness :
  song_data listening ≠ [] ∧
  log_data listening ≠ [] ∧
  Forall (λ e, valid_ts utc (ts e) = true) (log_data listening) ∧
  ∃ st', main utc jvm listening ∅ = Ok st' ∧
         main utc jvm listening st' = Ok st'.
Proof.
  split; [exact listening_songs|]. split; [exact listening_log|].
  split; [exact listening_valid|].
  exact (main_twice_is_main_once utc jvm listening ∅ listening_songs
           listening_log listening_valid).
Defined.

Lemma songplays_are_the_title_matches_witness :
  (∀ l, shuffle jvm l ≡ₚ l) ∧
  song_data listening ≠ [] ∧
  log_data listening ≠ [] ∧
  Forall (λ e, valid_ts utc (ts e) = true) (log_data listening) ∧
  ∃ T,
    written utc jvm listening "songplays.parquet" = Some T ∧
    ∀ r, r ∈ rows T ↔
      ∃ e rec t q d,
        e ∈ log_data listening ∧ rec ∈ song_data listening ∧
        song e = Some t ∧ title rec = Some t ∧
        Py.int_div_1000 (ts e) = Some q ∧
        Py.fromtimestamp utc q = Some d ∧
        r = [VStr (calendar_string jvm d); str_cell (userId e);
             str_cell (level e); VStr (song_id rec); VStr (artist_id rec);
             VLong (sessionId e); str_cell (location e);
             str_cell (userAgent e)].
Proof.
  split; [exact jvm_shuffle|]. split; [exact listening_songs|].
  split; [exact listening_log|]. split; [exact listening_valid|].
  exact (songplays_are_the_title_matches utc jvm listening jvm_shuffle
           listening_songs listening_log listening_valid).
Defined.

Lemma time_table_rows_follow_the_log_witness :
  song_data listening ≠ [] ∧
  log_data listening ≠ [] ∧
  Forall (λ e, valid_ts utc (ts e) = true) (log_data listening) ∧
  ∃ T,
    written utc jvm listening "time.parquet" = Some T ∧
    length (rows T) = length (log_data listening) ∧
    ∀ i e, log_data listening !! i = Some e →
      ∃ q t,
        Py.int_div_1000 (ts e) = Some q ∧
        Py.fromtimestamp utc q = Some t ∧
        rows T !! i =
          Some [VStr (calendar_string jvm t); VStr (Py.str (Py.hour t));
                VStr (Py.str (Py.day t));
                VStr (nth (Z.to_nat (Py.weekday t)) Py.day_name "");
                VStr (Py.str (Py.month t)); VStr (Py.str (Py.year t));
                VStr (Py.str (Py.isocalendar t).1.2)] ∧
        0 ≤ Py.hour t ≤ 23 ∧
        nth (Z.to_nat (Py.weekday t)) Py.day_name "" ∈ Py.day_name.
Proof.
  split; [exact listening_songs|]. split; [exact listening_log|].
  split; [exact listening_valid|].
  exact (time_table_rows_follow_the_log utc jvm listening listening_songs
           listening_log listening_valid).
Defined.

Lemma users_table_rows_follow_the_log_witness :
  song_data listening ≠ [] ∧
  log_data listening ≠ [] ∧
  Forall (λ e, valid_ts utc (ts e) = true) (log_data listening) ∧
  ∃ T,
    written utc jvm listening "users.parquet" = Some T ∧
    columns T = ["userId"; "firstName"; "lastName"; "gender"; "level"] ∧
    length (rows T) = length (log_data listening) ∧
    ∀ i e, log_data listening !! i = Some e →
      rows T !! i =
        Some [str_cell (userId e); str_cell (firstName e);
              str_cell (lastName e); str_cell (gender e);
              str_cell (level e)].
Proof.
  split; [exact listening_songs|]. split; [exact listening_log|].
  split; [exact listening_valid|].
  exact (users_table_rows_follow_the_log utc jvm listening listening_songs
           listening_log listening_valid).
Defined.

Lemma main_fails_on_empty_log_witness :
  log_data silence = [] ∧
  main utc jvm silence ∅ = Err AnalysisException.
Proof.
  split; [reflexivity|].
  exact (main_fails_on_empty_log utc jvm silence ∅ eq_refl).
Defined.

Lemma main_fails_on_empty_song_data_witness :
  song_data no_songs = [] ∧
  process_song_data jvm no_songs "s3a://sparkify-dend/" ∅ =
    Err AnalysisException ∧
  main utc jvm no_songs ∅ = Err AnalysisException.
Proof.
  split; [reflexivity|].
  exact (main_fails_on_empty_song_data utc jvm no_songs
           "s3a://sparkify-dend/" ∅ eq_refl).
Defined.

Lemma songplays_at_most_one_per_event_witness :
  (∀ l, shuffle jvm l ≡ₚ l) ∧
  song_data listening ≠ [] ∧
  log_data listening ≠ [] ∧
  Forall (λ e, valid_ts utc (ts e) = true) (log_data listening) ∧
  NoDup (map title (song_data listening)) ∧
  ∃ T,
    written utc jvm listening "songplays.parquet" = Some T ∧
    (length (rows T) ≤ length (log_data listening))%nat.
Proof.
  assert (NoDup (map title (song_data listening))) as Hnd
    by (apply (bool_decide_unpack _); vm_compute; exact I).
  split; [exact jvm_shuffle|]. split; [exact listening_songs|].
  split; [exact listening_log|]. split; [exact listening_valid|].
  split; [exact Hnd|].
  exact (songplays_at_most_one_per_event utc jvm listening jvm_shuffle
           listening_songs listening_log listening_valid Hnd).
Defined.

Lemma songplays_keys_resolve_witness :
  (∀ l, shuffle jvm l ≡ₚ l) ∧
  song_data listening ≠ [] ∧
  log_data listening ≠ [] ∧
  Forall (λ e, valid_ts utc (ts e) = true) (log_data listening) ∧
  ∃ P T U S A,
    written utc jvm listening "songplays.parquet" = Some P ∧
    written utc jvm listening "time.parquet" = Some T ∧
    written utc jvm listening "users.parquet" = Some U ∧
    written utc jvm listening "songs.parquet" = Some S ∧
    written utc jvm listening "artists.parquet" = Some A ∧
    ∀ r, r ∈ rows P →
      (∃ t, t ∈ rows T ∧ cell 0 t = cell 0 r) ∧
      (∃ u, u ∈ rows U ∧ cell 0 u = cell 1 r ∧ cell 4 u = cell 2 r) ∧
      (∃ s, s ∈ rows S ∧ cell 0 s = cell 3 r ∧ cell 2 s = cell 4 r) ∧
      (∃ a, a ∈ rows A ∧ cell 0 a = cell 4 r).
Proof.
  split; [exact jvm_shuffle|]. split; [exact listening_songs|].
  split; [exact listening_log|]. split; [exact listening_valid|].
  exact (songplays_keys_resolve utc jvm listening jvm_shuffle
           listening_songs listening_log listening_valid).
Defined.

End Witnesses.
